(** * Image upload / caption / view service (main.py)

    A shallow embedding of the Flask application in [main.py]: the three
    route handlers [index], [upload] and [view_image], the gateway helpers
    around Google Cloud Storage and Gemini, and process initialisation.

    The handlers are sequences of calls into external services.  The
    embedding makes the services explicit:
    - the world ([World]) holds the bucket objects, the local files, the
      paths at which something other than a file of the process exists,
      the process environment, the log and the trace of external calls;
    - the environment ([Env]) is a strategy that decides, from the history
      of external calls, whether the next call fails and what it returns;
    - Python exceptions are the [Raise] outcome of a state-and-exception
      monad whose state survives a raise, as in Python. *)

From Stdlib Require Import ZArith Ascii String List Bool Lia.
From stdpp Require Import base option gmap strings.
Import ListNotations.

Local Open Scope string_scope.

(* ===================================================================== *)
(** ** Python built-ins used by the program *)
(* ===================================================================== *)

Module Py.

(** Truthiness of an optional string ([None] and the empty string are
    falsy): what [not bucket_name] and [not filename] test. *)
Definition truthy (o : option string) : bool :=
  match o with
  | None => false
  | Some EmptyString => false
  | Some (String _ _) => true
  end.

(** [s.startswith(p)] and [s.endswith(p)]. *)
Definition startswith (s p : string) : bool := String.prefix p s.

Definition endswith (s p : string) : bool :=
  let n := String.length s in
  let k := String.length p in
  (k <=? n)%nat && String.eqb (String.substring (n - k) k s) p.

(** [s.replace(old, EmptyString)] for a non-empty [old]: occurrences are
    found left to right and do not overlap.  [skip] counts the characters
    of the occurrence in progress that are still to be dropped. *)
Fixpoint remove_all_from (old : string) (skip : nat) (s : string) : string :=
  match s with
  | EmptyString => EmptyString
  | String c rest =>
      match skip with
      | S k => remove_all_from old k rest
      | O =>
          if String.prefix old s
          then remove_all_from old (String.length old - 1) rest
          else String c (remove_all_from old 0 rest)
      end
  end.

Definition remove_all (old s : string) : string := remove_all_from old 0 s.

(** [str.isspace] on the code points below 128. *)
Definition isspace (c : ascii) : bool :=
  let n := nat_of_ascii c in
  ((9 <=? n) && (n <=? 13) || (28 <=? n) && (n <=? 32))%nat.

Fixpoint lstrip (s : string) : string :=
  match s with
  | EmptyString => EmptyString
  | String c rest => if isspace c then lstrip rest else s
  end.

(** [rstrip] keeps a character when it is not a space or when something
    is left after stripping what follows it. *)
Fixpoint rstrip (s : string) : string :=
  match s with
  | EmptyString => EmptyString
  | String c rest =>
      match rstrip rest with
      | EmptyString => if isspace c then EmptyString else String c EmptyString
      | r => String c r
      end
  end.

Definition strip (s : string) : string := rstrip (lstrip s).

(** [s.rfind(c)]: the last index of [c], or -1. *)
Fixpoint rfind_from (c : ascii) (s : string) (i last : Z) : Z :=
  match s with
  | EmptyString => last
  | String a rest =>
      rfind_from c rest (i + 1) (if Ascii.eqb a c then i else last)
  end.

Definition rfind (c : ascii) (s : string) : Z := rfind_from c s 0 (-1).

(** [os.path.splitext] (posixpath): the extension starts at the last dot
    of the last path component, unless that component has only leading
    dots before it. *)
Definition splitext (p : string) : string * string :=
  let sepIndex := rfind "/"%char p in
  let dotIndex := rfind "."%char p in
  if (sepIndex <? dotIndex)%Z then
    let first := Z.to_nat (sepIndex + 1) in
    let dot := Z.to_nat dotIndex in
    if existsb
         (fun i => match String.get i p with
                   | Some c => negb (Ascii.eqb c "."%char)
                   | None => false
                   end)
         (seq first (dot - first))
    then (String.substring 0 dot p,
          String.substring dot (String.length p - dot) p)
    else (p, EmptyString)
  else (p, EmptyString).

(** [os.path.join(a, b)] (posixpath, two components). *)
Definition path_join (a b : string) : string :=
  if startswith b "/" then b
  else match a with
       | EmptyString => b
       | _ => if endswith a "/" then a ++ b else a ++ "/" ++ b
       end.

End Py.

(* ===================================================================== *)
(** ** Values, exceptions and the monad of effects *)
(* ===================================================================== *)

Local Set Warnings "-register-all".

(** What [json.loads] returns.  A [JObj] is a Python [dict]; any other
    constructor is a value without a [get] method. *)
Inductive json : Type :=
| JNull
| JBool (b : bool)
| JInt (n : Z)
| JFloat (repr : string)
| JStr (s : string)
| JArr (items : list json)
| JObj (fields : list (string * json)).

(** Exception classes that occur in the program; all of them derive from
    [Exception]. *)
Inductive ExnClass : Type :=
| JSONDecodeError
| AttributeError
| FileNotFoundError
| OSError
| ValueError
| IndexError
| ServiceError.

Record Exn : Type := MkExn { exn_class : ExnClass; exn_msg : string }.

Definition is_JSONDecodeError (e : Exn) : bool :=
  match exn_class e with JSONDecodeError => true | _ => false end.

Inductive Outcome (A : Type) : Type :=
| Ok (a : A)
| Raise (e : Exn).
Arguments Ok {A} a.
Arguments Raise {A} e.

(** A computation over a state [S]: the state survives a [Raise]. *)
Definition M (S A : Type) : Type := S -> Outcome A * S.

Definition ret {S A} (a : A) : M S A := fun s => (Ok a, s).

Definition bind {S A B} (m : M S A) (k : A -> M S B) : M S B :=
  fun s =>
    match m s with
    | (Ok a, s') => k a s'
    | (Raise e, s') => (Raise e, s')
    end.

Definition raise {S A} (e : Exn) : M S A := fun s => (Raise e, s).

Definition lift_outcome {S A} (o : Outcome A) : M S A := fun s => (o, s).

(** [try: m  except <clauses>]: [clauses e] is the body of the first
    [except] clause that matches [e], if any.  An exception raised inside
    a handler is not offered to the other clauses. *)
Definition try_except {S A} (m : M S A) (clauses : Exn -> option (M S A))
  : M S A :=
  fun s =>
    match m s with
    | (Ok a, s') => (Ok a, s')
    | (Raise e, s') =>
        match clauses e with
        | Some handler => handler s'
        | None => (Raise e, s')
        end
    end.

(** [try: m  finally: cleanup]: the cleanup runs on every exit of [m]; its
    own exception, if any, replaces the result. *)
Definition try_finally {S A} (m : M S A) (cleanup : M S unit) : M S A :=
  fun s =>
    match m s with
    | (r, s') =>
        match cleanup s' with
        | (Ok _, s'') => (r, s'')
        | (Raise e, s'') => (Raise e, s'')
        end
    end.

(** Running a computation on the second component of a pair state. *)
Definition in_world {F W A} (m : M W A) : M (F * W) A :=
  fun s =>
    match m (snd s) with
    | (r, w') => (r, (fst s, w'))
    end.

Declare Scope eff_scope.
Delimit Scope eff_scope with eff.
Notation "x <- m ;; k" := (bind m (fun x => k))
  (at level 100, m at next level, right associativity) : eff_scope.
Notation "m ;;; k" := (bind m (fun _ => k))
  (at level 100, right associativity) : eff_scope.
Local Open Scope eff_scope.

(** [d.get(key, default)]: a lookup on a dict, an [AttributeError] on
    anything else. *)
Fixpoint assoc (key : string) (fields : list (string * json)) : option json :=
  match fields with
  | [] => None
  | (k, v) :: rest => if String.eqb k key then Some v else assoc key rest
  end.

Definition dict_get (d : json) (key : string) (default : json) : Outcome json :=
  match d with
  | JObj fields =>
      Ok (match assoc key fields with Some v => v | None => default end)
  | _ => Raise (MkExn AttributeError "object has no attribute 'get'")
  end.

(* ===================================================================== *)
(** ** The world and the environment *)
(* ===================================================================== *)

(** Calls that leave the process or the Python runtime. *)
Inductive Call : Type :=
| SecretManagerServiceClient
| AccessSecretVersion (name : string)
| FileWrite (path : string)
| StorageClient
| GenerativeModel (model_name : string)
| GenaiUploadFile (path mime_type : string)
| StartChat
| SendMessage (prompt : string)
| BlobUpload (bucket source dest : string)
| ListBlobs (bucket : string)
| BlobExists (bucket key : string)
| BlobDownload (bucket key : string)
| GenerateSignedUrl (bucket key : string) (expiration : Z).

(** One entry of the trace: the call and what the environment answered. *)
Record Event : Type := MkEvent { ev_call : Call; ev_answer : Outcome string }.

Definition ev_ok (ev : Event) : bool :=
  match ev_answer ev with Ok _ => true | Raise _ => false end.

(** What a failed local write leaves behind: nothing changed ([None]) or
    a file with partial contents. *)
Inductive WriteOutcome : Type :=
| Written
| WriteFailed (e : Exn) (left : option string).

(** The environment is a strategy: given the calls made so far (most
    recent first) and the next call, it fails the call or lets it
    through.  The string of an [Ok] answer is the data the service
    supplies (a secret payload, the chat response text, a signed URL, a
    file handle); it is ignored for calls that return no data. *)
Record Env : Type := MkEnv {
  env_answer : list Event -> Call -> Outcome string;
  env_write : list Event -> string -> WriteOutcome
}.

Inductive LogLevel : Type := DEBUG | INFO | ERROR.

Record World : Type := MkWorld {
  w_objects : gmap (string * string) string;  (* (bucket, key) -> contents *)
  w_files : gmap string string;               (* local path -> contents *)
  w_environ : gmap string string;             (* os.environ *)
  w_genai_key : option string;                (* genai.configure(api_key=..) *)
  w_log : list (LogLevel * string);           (* most recent first *)
  w_trace : list Event;                       (* most recent first *)
  w_blocked : gset string                     (* see below *)
}.

(** [w_files] holds the regular files that the process may write and
    unlink.  [w_blocked] holds the other paths that exist: directories,
    and files that the process can neither open for writing nor unlink
    (those of another owner in a sticky directory such as [/tmp]).  The
    program never creates such a path and cannot remove one.  A path in
    [w_files] is a regular file whatever [w_blocked] says.  The model
    has no file that the process may write but not unlink. *)

Definition set_objects (f : gmap (string * string) string -> gmap (string * string) string)
    (w : World) : World :=
  MkWorld (f (w_objects w)) (w_files w) (w_environ w) (w_genai_key w)
          (w_log w) (w_trace w) (w_blocked w).

Definition set_files (f : gmap string string -> gmap string string)
    (w : World) : World :=
  MkWorld (w_objects w) (f (w_files w)) (w_environ w) (w_genai_key w)
          (w_log w) (w_trace w) (w_blocked w).

Definition set_blocked (f : gset string -> gset string) (w : World) : World :=
  MkWorld (w_objects w) (w_files w) (w_environ w) (w_genai_key w)
          (w_log w) (w_trace w) (f (w_blocked w)).

Definition set_environ (f : gmap string string -> gmap string string)
    (w : World) : World :=
  MkWorld (w_objects w) (w_files w) (f (w_environ w)) (w_genai_key w)
          (w_log w) (w_trace w) (w_blocked w).

Definition set_genai_key (k : option string) (w : World) : World :=
  MkWorld (w_objects w) (w_files w) (w_environ w) k (w_log w) (w_trace w)
          (w_blocked w).

Definition add_log (l : LogLevel) (msg : string) (w : World) : World :=
  MkWorld (w_objects w) (w_files w) (w_environ w) (w_genai_key w)
          ((l, msg) :: w_log w) (w_trace w) (w_blocked w).

Definition add_event (ev : Event) (w : World) : World :=
  MkWorld (w_objects w) (w_files w) (w_environ w) (w_genai_key w)
          (w_log w) (ev :: w_trace w) (w_blocked w).

(** HTTP responses of the route handlers. *)
Inductive Response : Type :=
| Plain (body : string) (status : nat)
| Redirect (endpoint : string) (filename : string)
| RenderIndex (images : list string) (bg_color : string)
| RenderView (image_url : string) (title description : json)
             (bg_color : string).

Definition status_of (r : Response) : nat :=
  match r with
  | Plain _ status => status
  | Redirect _ _ => 302
  | RenderIndex _ _ => 200
  | RenderView _ _ _ _ => 200
  end.

(** The status the client sees: an exception that leaves a handler is
    turned into a 500 by the framework. *)
Definition http_status (o : Outcome Response) : nat :=
  match o with
  | Ok r => status_of r
  | Raise _ => 500
  end.

(** The parts of a Flask request that the handlers read. *)
Record FileStorage : Type := MkFile { filename : string; stream : string }.

Record Request : Type := MkRequest {
  req_files : gmap string FileStorage;   (* request.files *)
  req_args : gmap string string          (* request.args *)
}.

(* ===================================================================== *)
(** ** The program *)
(* ===================================================================== *)

Section App.

(** The environment, the [json] module and the module-level constant
    [bucket_name = os.getenv("GCS_BUCKET_NAME")]. *)
Variable env : Env.
Variable json_loads : string -> Outcome json.
Variable json_dumps : json -> string.
Variable bucket_name : option string.

Definition PROJECT_ID : string := "image-upload-gcp-project".
Definition SECRET_NAME : string := "GCS_SERVICE_ACCOUNT_KEY".
Definition GEMINI_SECRET_NAME : string := "GEMINI_API_KEY".

(** *** Primitive effects *)

(** An external call: the environment answers, the trace grows. *)
Definition external (c : Call) : M World string :=
  fun w =>
    let answer := env_answer env (w_trace w) c in
    (answer, add_event (MkEvent c answer) w).

Definition modify (f : World -> World) : M World unit :=
  fun w => (Ok tt, f w).

Definition logging (l : LogLevel) (msg : string) : M World unit :=
  modify (add_log l msg).

(** A path at which something exists that is not one of the process's
    own regular files. *)
Definition is_blocked (w : World) (path : string) : bool :=
  match w_files w !! path with
  | Some _ => false
  | None => bool_decide (path ∈ w_blocked w)
  end.

(** What the operating system answers at such a path. *)
Definition cannot_open (path : string) : Exn :=
  MkExn OSError ("cannot open " ++ path).

Definition cannot_remove (path : string) : Exn :=
  MkExn OSError ("cannot remove " ++ path).

(** Writing a local file ([file.save], [open(.., 'w')] and the write).
    Opening a directory, or a file of another owner, fails before
    anything is written. *)
Definition write_file (path data : string) : M World unit :=
  fun w =>
    if is_blocked w path then
      (Raise (cannot_open path),
       add_event (MkEvent (FileWrite path) (Raise (cannot_open path))) w)
    else
      match env_write env (w_trace w) path with
      | Written =>
          (Ok tt, add_event (MkEvent (FileWrite path) (Ok path))
                    (set_files (insert path data) w))
      | WriteFailed e None =>
          (Raise e, add_event (MkEvent (FileWrite path) (Raise e)) w)
      | WriteFailed e (Some part) =>
          (Raise e, add_event (MkEvent (FileWrite path) (Raise e))
                      (set_files (insert path part) w))
      end.

(** [os.path.exists]: true for regular files and for directories. *)
Definition path_exists (path : string) : M World bool :=
  fun w => (Ok (bool_decide (is_Some (w_files w !! path))
                || is_blocked w path), w).

(** After a file is unlinked nothing exists at its path. *)
Definition unlink (path : string) (w : World) : World :=
  set_blocked (fun paths => paths ∖ {[path]}) (set_files (delete path) w).

(** [os.remove]: unlinks a regular file of the process; raises on a
    directory, on a file it may not unlink and on a missing path. *)
Definition os_remove (path : string) : M World unit :=
  fun w =>
    match w_files w !! path with
    | Some _ => (Ok tt, unlink path w)
    | None =>
        if is_blocked w path
        then (Raise (cannot_remove path), w)
        else (Raise (MkExn FileNotFoundError path), w)
    end.

(** [os.getenv(name, default)]. *)
Definition getenv (name default : string) : M World string :=
  fun w => (Ok (match w_environ w !! name with
                | Some v => v
                | None => default
                end), w).

(** *** The storage client library

    Every operation needs the bucket's name to address the service.  A
    handle cannot be made from the empty string (the name's first
    character is looked at), and an operation on a handle made from
    [None] raises when it computes the resource path: in both cases
    before any request is sent. *)
Definition bucket_handle (b : option string) : Outcome string :=
  match b with
  | Some (String c s) => Ok (String c s)
  | Some EmptyString => Raise (MkExn IndexError "string index out of range")
  | None => Raise (MkExn ValueError "Cannot determine path without bucket name.")
  end.

(** [bucket.blob(dest).upload_from_filename(source)]: reads the local
    file, then sends it; the object is written when the call succeeds. *)
Definition blob_upload_from_filename (b : option string) (source dest : string)
  : M World unit :=
  name <- lift_outcome (bucket_handle b) ;;
  fun w =>
    match w_files w !! source with
    | None => (Raise (MkExn FileNotFoundError source), w)
    | Some data =>
        (external (BlobUpload name source dest) ;;;
         modify (set_objects (insert (name, dest) data))) w
    end.

(** [bucket.blob(key).exists()]. *)
Definition blob_exists (b : option string) (key : string) : M World bool :=
  name <- lift_outcome (bucket_handle b) ;;
  external (BlobExists name key) ;;;
  fun w => (Ok (bool_decide (is_Some (w_objects w !! (name, key)))), w).

(** [bucket.blob(key).download_as_text()]. *)
Definition blob_download_as_text (b : option string) (key : string)
  : M World string :=
  name <- lift_outcome (bucket_handle b) ;;
  external (BlobDownload name key) ;;;
  fun w =>
    match w_objects w !! (name, key) with
    | Some text => (Ok text, w)
    | None => (Raise (MkExn ServiceError "404 No such object"), w)
    end.

(** [bucket.list_blobs()], as the names of the bucket's objects. *)
Definition list_blobs (b : option string) : M World (list string) :=
  name <- lift_outcome (bucket_handle b) ;;
  external (ListBlobs name) ;;;
  fun w =>
    (Ok (omap (fun kv => if String.eqb (fst (fst kv)) name
                         then Some (snd (fst kv)) else None)
              (map_to_list (w_objects w))), w).

(** [blob.generate_signed_url(version="v4", expiration, method="GET")]:
    a URL at the default endpoint of the service.  What follows the
    endpoint (the resource path and the signed query) is the answer of
    the signing call and is not modelled further. *)
Definition generate_signed_url (b : option string) (key : string)
    (expiration : Z) : M World string :=
  name <- lift_outcome (bucket_handle b) ;;
  signed <- external (GenerateSignedUrl name key expiration) ;;
  ret ("https://storage.googleapis.com/" ++ signed).

(** *** main.py *)

(** [get_gcs_credentials]. *)
Definition get_gcs_credentials : M World string :=
  external SecretManagerServiceClient ;;;
  let secret_path :=
    "projects/" ++ PROJECT_ID ++ "/secrets/" ++ SECRET_NAME
      ++ "/versions/latest" in
  secret_json <- external (AccessSecretVersion secret_path) ;;
  let temp_cred_path := "/tmp/gcs_service_account.json" in
  write_file temp_cred_path secret_json ;;;
  modify (set_environ (insert "GOOGLE_APPLICATION_CREDENTIALS" temp_cred_path)) ;;;
  let gemini_secret_path :=
    "projects/" ++ PROJECT_ID ++ "/secrets/" ++ GEMINI_SECRET_NAME
      ++ "/versions/latest" in
  try_except
    (gemini_api_key <- external (AccessSecretVersion gemini_secret_path) ;;
     modify (set_genai_key (Some gemini_api_key)) ;;;
     logging INFO "Gemini AI API Key successfully configured.")
    (fun e =>
       Some (logging ERROR ("Failed to retrieve Gemini API Key: " ++ exn_msg e) ;;;
             raise e)) ;;;
  ret temp_cred_path.

(** [initialize_clients]: the value is the handle [storage.Client()]
    returns; the module binds it to [storage_client]. *)
Definition initialize_clients : M World string :=
  get_gcs_credentials ;;;
  external StorageClient.

(** [upload_to_gemini]. *)
Definition upload_to_gemini (path mime_type : string)
  : M World (option string) :=
  try_except
    (file <- external (GenaiUploadFile path mime_type) ;;
     ret (Some file))
    (fun e =>
       Some (logging ERROR ("Failed to upload image to Gemini: " ++ exn_msg e) ;;;
             ret None)).

Definition upload_error : json :=
  JObj [("title", JStr "Upload Error");
        ("description", JStr "Failed to upload image to Gemini AI.")].

Definition invalid_response : json :=
  JObj [("title", JStr "Invalid Response");
        ("description", JStr "Gemini AI returned an invalid response.")].

Definition processing_error : json :=
  JObj [("title", JStr "Error");
        ("description", JStr "An error occurred while processing the image.")].

(** The text handed to [json.loads]: the response text with the fence
    markers replaced by nothing (first the opening marker with its
    language tag, then the bare marker), then stripped. *)
Definition strip_fences (text : string) : string :=
  Py.strip (Py.remove_all "```" (Py.remove_all "```json" text)).

(** [generative_ai]. *)
Definition generative_ai (image_file : string) : M World json :=
  try_except
    (external (GenerativeModel "gemini-1.5-flash") ;;;
     files <- upload_to_gemini image_file "image/jpeg" ;;
     match files with
     | None => ret upload_error
     | Some _ =>
         external StartChat ;;;
         text <- external (SendMessage "Generate title and description in JSON format") ;;
         logging DEBUG ("Gemini API Response: " ++ text) ;;;
         let response_text := strip_fences text in
         lift_outcome (json_loads response_text)
     end)
    (fun e =>
       if is_JSONDecodeError e
       then Some (logging ERROR "Invalid JSON response from Gemini AI" ;;;
                  ret invalid_response)
       else Some (logging ERROR ("Error in generative AI: " ++ exn_msg e) ;;;
                  ret processing_error)).

(** [upload_to_gcs]. *)
Definition upload_to_gcs (bucket_name : option string)
    (source_file destination_blob_name : string) : M World bool :=
  try_except
    (blob_upload_from_filename bucket_name source_file destination_blob_name ;;;
     logging INFO ("Uploaded " ++ destination_blob_name ++ " to GCS successfully.") ;;;
     ret true)
    (fun e =>
       Some (logging ERROR ("Failed to upload " ++ source_file ++ " to GCS: "
                              ++ exn_msg e) ;;;
             ret false)).

(** [list_uploaded_images]. *)
Definition list_uploaded_images (bucket_name : option string)
  : M World (list string) :=
  try_except
    (blobs <- list_blobs bucket_name ;;
     ret (List.filter
            (fun name => Py.endswith name ".jpg" || Py.endswith name ".jpeg")
            blobs))
    (fun e =>
       Some (logging ERROR ("Failed to list images in GCS: " ++ exn_msg e) ;;;
             ret [])).

(** [generate_temporary_url]. *)
Definition generate_temporary_url (bucket_name : option string)
    (blob_name : string) (expiration : Z) : M World (option string) :=
  try_except
    (found <- blob_exists bucket_name blob_name ;;
     if negb found then
       logging ERROR ("File " ++ blob_name ++ " not found in GCS.") ;;;
       ret None
     else
       url <- generate_signed_url bucket_name blob_name expiration ;;
       ret (Some url))
    (fun e =>
       Some (logging ERROR ("Failed to generate signed URL for " ++ blob_name
                              ++ ": " ++ exn_msg e) ;;;
             ret None)).

(** [index], route [/]. *)
Definition index : M World Response :=
  if negb (Py.truthy bucket_name) then
    ret (Plain "GCS_BUCKET_NAME is not set" 500)
  else
    images <- list_uploaded_images bucket_name ;;
    bg_color <- getenv "BACKGROUND_COLOR" "#f0f2f5" ;;
    ret (RenderIndex images bg_color).

(** The local variables of [upload] that its [finally] block reads. *)
Record UploadLocals : Type := MkLocals {
  json_path : option string;
  temp_path : option string
}.

Definition set_temp_path (p : string) : M (UploadLocals * World) unit :=
  fun s => (Ok tt, (MkLocals (json_path (fst s)) (Some p), snd s)).

Definition set_json_path (p : string) : M (UploadLocals * World) unit :=
  fun s => (Ok tt, (MkLocals (Some p) (temp_path (fst s)), snd s)).

Definition get_locals : M (UploadLocals * World) UploadLocals :=
  fun s => (Ok (fst s), s).

(** Running a block with fresh locals. *)
Definition with_locals {A} (init : UploadLocals) (m : M (UploadLocals * World) A)
  : M World A :=
  fun w =>
    match m (init, w) with
    | (r, s) => (r, snd s)
    end.

(** [a or b] on effectful operands: [b] runs only when [a] is false. *)
Definition or_else {S} (a b : M S bool) : M S bool :=
  x <- a ;;
  if x then ret true else b.

Definition not_ {S} (a : M S bool) : M S bool :=
  x <- a ;;
  ret (negb x).

(** The [try] block of [upload] with its [except] clause.  [Some r] is a
    [return r] executed inside the block, [None] is falling off its end. *)
Definition upload_try (request : Request)
  : M (UploadLocals * World) (option Response) :=
  try_except
    (match req_files request !! "image" with
     | None => ret (Some (Plain "No file uploaded" 400))
     | Some file =>
         if String.eqb (filename file) EmptyString then
           ret (Some (Plain "No file selected" 400))
         else
           let temp_path := Py.path_join "/tmp" (filename file) in
           set_temp_path temp_path ;;;
           in_world (write_file temp_path (stream file)) ;;;
           ai_response <- in_world (generative_ai temp_path) ;;
           title <- lift_outcome
                      (dict_get ai_response "title" (JStr "No title present")) ;;
           description <- lift_outcome
                      (dict_get ai_response "description"
                                (JStr "No description present")) ;;
           let json_data :=
             JObj [("title", title); ("description", description)] in
           let json_filename := fst (Py.splitext (filename file)) ++ ".json" in
           let json_path := Py.path_join "/tmp" json_filename in
           set_json_path json_path ;;;
           in_world (write_file json_path (json_dumps json_data)) ;;;
           failed <- or_else
                       (not_ (in_world
                                (upload_to_gcs bucket_name temp_path
                                               (filename file))))
                       (not_ (in_world
                                (upload_to_gcs bucket_name json_path
                                               json_filename))) ;;
           if failed then ret (Some (Plain "File upload failed" 500))
           else ret None
     end)
    (fun e =>
       Some (in_world (logging ERROR ("Unexpected error: " ++ exn_msg e)) ;;;
             ret (Some (Plain "Internal Server Error" 500)))).

(** One [if p and os.path.exists(p): os.remove(p)] of the [finally]
    block. *)
Definition remove_if_exists (p : option string) : M (UploadLocals * World) unit :=
  match p with
  | None | Some EmptyString => ret tt
  | Some path =>
      found <- in_world (path_exists path) ;;
      if found then in_world (os_remove path) else ret tt
  end.

Definition upload_finally : M (UploadLocals * World) unit :=
  locals <- get_locals ;;
  remove_if_exists (temp_path locals) ;;;
  locals <- get_locals ;;
  remove_if_exists (json_path locals).

(** [upload], route [/upload]. *)
Definition upload (request : Request) : M World Response :=
  if negb (Py.truthy bucket_name) then
    ret (Plain "GCS_BUCKET_NAME is not set" 500)
  else
    with_locals (MkLocals None None)
      (returned <- try_finally (upload_try request) upload_finally ;;
       match returned with
       | Some response => ret response
       | None =>
           match req_files request !! "image" with
           | Some file => ret (Redirect "view_image" (filename file))
           | None => raise (MkExn AttributeError "local variable 'file' is not bound")
           end
       end).

(** [view_image], route [/view]. *)
Definition view_image (request : Request) : M World Response :=
  match req_args request !! "filename" with
  | None | Some EmptyString => ret (Plain "No file specified" 400)
  | Some filename =>
      let json_filename := fst (Py.splitext filename) ++ ".json" in
      found <- blob_exists bucket_name json_filename ;;
      if negb found then
        logging ERROR ("Metadata file " ++ json_filename
                         ++ " not found in bucket.") ;;;
        ret (Plain "Metadata not found" 404)
      else
        loaded <- try_except
                    (text <- blob_download_as_text bucket_name json_filename ;;
                     json_data <- lift_outcome (json_loads text) ;;
                     ret (inr json_data))
                    (fun e =>
                       if is_JSONDecodeError e
                       then Some (logging ERROR
                                    ("Invalid JSON in metadata file: "
                                       ++ json_filename) ;;;
                                  ret (inl (Plain "Invalid metadata format" 500)))
                       else None) ;;
        match loaded with
        | inl response => ret response
        | inr json_data =>
            title <- lift_outcome
                       (dict_get json_data "title" (JStr "No title available")) ;;
            description <- lift_outcome
                       (dict_get json_data "description"
                                 (JStr "No description available")) ;;
            temp_url <- generate_temporary_url bucket_name filename 3600 ;;
            logging DEBUG ("Generated Signed URL: "
                             ++ match temp_url with
                                | Some u => u
                                | None => "None"
                                end) ;;;
            match temp_url with
            | None | Some EmptyString =>
                ret (Plain "Error generating image URL" 500)
            | Some url =>
                bg_color <- getenv "BACKGROUND_COLOR" "#f0f2f5" ;;
                ret (RenderView url title description bg_color)
            end
        end
  end.

End App.

(* ===================================================================== *)
(** ** A [json] module for running the program

    [dumps] prints as [json.dump] does with its default separators;
    [loads] is a recursive-descent reader for objects, arrays, strings
    with the one-letter escapes, numbers and the three literals.  It is
    what the examples and the concrete runs below parse with; the general
    theorems take [json.loads] and [json.dumps] as parameters. *)
(* ===================================================================== *)

Module Json.

Definition quote : ascii := "034"%char.
Definition backslash : ascii := "092"%char.
Definition newline : ascii := "010"%char.
Definition tab : ascii := "009"%char.
Definition creturn : ascii := "013"%char.

Fixpoint escape (s : string) : string :=
  match s with
  | EmptyString => EmptyString
  | String c rest =>
      if Ascii.eqb c quote then String backslash (String quote (escape rest))
      else if Ascii.eqb c backslash
           then String backslash (String backslash (escape rest))
      else if Ascii.eqb c newline then String backslash (String "n" (escape rest))
      else if Ascii.eqb c tab then String backslash (String "t" (escape rest))
      else if Ascii.eqb c creturn then String backslash (String "r" (escape rest))
      else String c (escape rest)
  end.

Definition dumps_string (s : string) : string :=
  String quote (escape s ++ String quote EmptyString).

Definition join_with (sep : string) (parts : list string) : string :=
  match parts with
  | [] => EmptyString
  | p :: ps => fold_left (fun acc q => acc ++ sep ++ q) ps p
  end.

Fixpoint dumps (j : json) : string :=
  match j with
  | JNull => "null"
  | JBool true => "true"
  | JBool false => "false"
  | JInt n => pretty.pretty n
  | JFloat repr => repr
  | JStr s => dumps_string s
  | JArr items => "[" ++ join_with ", " (List.map dumps items) ++ "]"
  | JObj fields =>
      "{" ++ join_with ", "
               (List.map (fun kv => dumps_string (fst kv) ++ ": " ++ dumps (snd kv))
                         fields)
          ++ "}"
  end.

(** [d[k] = v] on a dict kept in insertion order. *)
Fixpoint dict_set (k : string) (v : json) (fields : list (string * json))
  : list (string * json) :=
  match fields with
  | [] => [(k, v)]
  | (k', v') :: rest =>
      if String.eqb k' k then (k', v) :: rest
      else (k', v') :: dict_set k v rest
  end.

Definition is_number_char (c : ascii) : bool :=
  let n := nat_of_ascii c in
  ((48 <=? n) && (n <=? 57))%nat
  || Ascii.eqb c "-" || Ascii.eqb c "+" || Ascii.eqb c "."
  || Ascii.eqb c "e" || Ascii.eqb c "E".

Definition is_digit (c : ascii) : bool :=
  let n := nat_of_ascii c in ((48 <=? n) && (n <=? 57))%nat.

(** The longest prefix of number characters, and the rest. *)
Fixpoint span_number (s : string) : string * string :=
  match s with
  | String c rest =>
      if is_number_char c
      then let '(tok, rest') := span_number rest in (String c tok, rest')
      else (EmptyString, s)
  | EmptyString => (EmptyString, EmptyString)
  end.

Fixpoint digits_value (s : string) (acc : Z) : option Z :=
  match s with
  | EmptyString => Some acc
  | String c rest =>
      if is_digit c
      then digits_value rest (10 * acc + Z.of_nat (nat_of_ascii c) - 48)%Z
      else None
  end.

Definition number_of_token (tok : string) : option json :=
  match tok with
  | EmptyString => None
  | String "-" EmptyString => None
  | String "-" ds =>
      match digits_value ds 0 with
      | Some n => Some (JInt (- n))
      | None => Some (JFloat tok)
      end
  | ds =>
      match digits_value ds 0 with
      | Some n => Some (JInt n)
      | None => Some (JFloat tok)
      end
  end.

(** The body of a string literal after its opening quote. *)
Fixpoint read_string (s : string) : option (string * string) :=
  match s with
  | EmptyString => None
  | String c rest =>
      if Ascii.eqb c quote then Some (EmptyString, rest)
      else if Ascii.eqb c backslash then
        match rest with
        | String d rest' =>
            let unescaped :=
              if Ascii.eqb d "n" then Some newline
              else if Ascii.eqb d "t" then Some tab
              else if Ascii.eqb d "r" then Some creturn
              else if Ascii.eqb d quote then Some quote
              else if Ascii.eqb d backslash then Some backslash
              else if Ascii.eqb d "/" then Some "/"%char
              else None in
            match unescaped, read_string rest' with
            | Some u, Some (body, after) => Some (String u body, after)
            | _, _ => None
            end
        | EmptyString => None
        end
      else
        match read_string rest with
        | Some (body, after) => Some (String c body, after)
        | None => None
        end
  end.

Definition after_prefix (p s : string) : option string :=
  if String.prefix p s
  then Some (String.substring (String.length p)
                              (String.length s - String.length p) s)
  else None.

Fixpoint read_value (fuel : nat) (s : string) : option (json * string) :=
  match fuel with
  | O => None
  | S fuel' =>
      match Py.lstrip s with
      | EmptyString => None
      | String c rest as s' =>
          if Ascii.eqb c quote then
            match read_string rest with
            | Some (body, after) => Some (JStr body, after)
            | None => None
            end
          else if Ascii.eqb c "[" then
            match Py.lstrip rest with
            | String "]" after => Some (JArr [], after)
            | _ => read_items fuel' rest []
            end
          else if Ascii.eqb c "{" then
            match Py.lstrip rest with
            | String "}" after => Some (JObj [], after)
            | _ => read_members fuel' rest []
            end
          else
            match after_prefix "null" s', after_prefix "true" s',
                  after_prefix "false" s' with
            | Some after, _, _ => Some (JNull, after)
            | _, Some after, _ => Some (JBool true, after)
            | _, _, Some after => Some (JBool false, after)
            | _, _, _ =>
                let '(tok, after) := span_number s' in
                match number_of_token tok with
                | Some n => Some (n, after)
                | None => None
                end
            end
      end
  end

with read_items (fuel : nat) (s : string) (acc : list json)
  : option (json * string) :=
  match fuel with
  | O => None
  | S fuel' =>
      match read_value fuel' s with
      | Some (v, after) =>
          match Py.lstrip after with
          | String "," rest => read_items fuel' rest (acc ++ [v])
          | String "]" rest => Some (JArr (acc ++ [v]), rest)
          | _ => None
          end
      | None => None
      end
  end

with read_members (fuel : nat) (s : string) (acc : list (string * json))
  : option (json * string) :=
  match fuel with
  | O => None
  | S fuel' =>
      match Py.lstrip s with
      | String c rest =>
          if Ascii.eqb c quote then
            match read_string rest with
            | Some (key, after_key) =>
                match Py.lstrip after_key with
                | String ":" rest' =>
                    match read_value fuel' rest' with
                    | Some (v, after) =>
                        match Py.lstrip after with
                        | String "," rest'' =>
                            read_members fuel' rest'' (dict_set key v acc)
                        | String "}" rest'' =>
                            Some (JObj (dict_set key v acc), rest'')
                        | _ => None
                        end
                    | None => None
                    end
                | _ => None
                end
            | None => None
            end
          else None
      | EmptyString => None
      end
  end.

Definition loads (s : string) : Outcome json :=
  match read_value (2 * String.length s + 2) s with
  | Some (v, after) =>
      match Py.lstrip after with
      | EmptyString => Ok v
      | _ => Raise (MkExn JSONDecodeError "Extra data")
      end
  | None => Raise (MkExn JSONDecodeError "Expecting value")
  end.

End Json.

Definition cat_record : json :=
  JObj [("title", JStr "Cat"); ("description", JStr "A cat.")].

(* ===================================================================== *)
(** ** Concrete worlds, environments and requests *)
(* ===================================================================== *)

Definition empty_world : World := MkWorld ∅ ∅ ∅ None [] [] ∅.

(** The chat answer of the scenario: the record inside a code fence. *)
Definition fenced_cat : string :=
  "```json" ++ String Json.newline (Json.dumps cat_record)
            ++ String Json.newline "```".

(** Every service works; the chat answers [fenced_cat]. *)
Definition env_ok : Env :=
  MkEnv (fun _ c => match c with
                    | SendMessage _ => Ok fenced_cat
                    | _ => Ok "ok"
                    end)
        (fun _ _ => Written).

(** As [env_ok], but signing a URL fails. *)
Definition env_no_signing : Env :=
  MkEnv (fun h c => match c with
                    | GenerateSignedUrl _ _ _ =>
                        Raise (MkExn ServiceError "no private key")
                    | _ => env_answer env_ok h c
                    end)
        (fun _ _ => Written).

(** As [env_ok], but the secret store refuses the Gemini API key. *)
Definition env_no_gemini_key : Env :=
  MkEnv (fun h c => match c with
                    | AccessSecretVersion name =>
                        if Py.endswith name "/GEMINI_API_KEY/versions/latest"
                        then Raise (MkExn ServiceError "permission denied")
                        else Ok "{}"
                    | _ => env_answer env_ok h c
                    end)
        (fun _ _ => Written).

(** As [env_ok], but the AI service refuses the image. *)
Definition env_no_gemini_upload : Env :=
  MkEnv (fun h c => match c with
                    | GenaiUploadFile _ _ =>
                        Raise (MkExn ServiceError "quota exceeded")
                    | _ => env_answer env_ok h c
                    end)
        (fun _ _ => Written).

(** As [env_ok], but the chat answers with [text]. *)
Definition env_chat (text : string) : Env :=
  MkEnv (fun h c => match c with
                    | SendMessage _ => Ok text
                    | _ => env_answer env_ok h c
                    end)
        (fun _ _ => Written).

(** As [env_ok], but uploads to keys with the suffix [ext] fail. *)
Definition env_no_upload_of (ext : string) : Env :=
  MkEnv (fun h c => match c with
                    | BlobUpload _ _ dest =>
                        if Py.endswith dest ext
                        then Raise (MkExn ServiceError "503")
                        else Ok "ok"
                    | _ => env_answer env_ok h c
                    end)
        (fun _ _ => Written).

(** As [env_ok], but the existence checks cannot reach the service. *)
Definition env_storage_unreachable : Env :=
  MkEnv (fun h c => match c with
                    | BlobExists _ _ =>
                        Raise (MkExn ServiceError "connection reset")
                    | _ => env_answer env_ok h c
                    end)
        (fun _ _ => Written).

(** A bucket with a metadata object for [cat.jpg] that holds [text],
    with or without the image itself. *)
Definition only_metadata (text : string) : World :=
  set_objects (insert ("photos", "cat.json") text) empty_world.

Definition image_and_metadata (text : string) : World :=
  set_objects (insert ("photos", "cat.jpg") "JFIF") (only_metadata text).

(** As [env_ok], but no local file can be opened for writing. *)
Definition env_disk_full : Env :=
  MkEnv (env_answer env_ok)
        (fun _ _ => WriteFailed (MkExn OSError "No space left on device") None).

(** A second answer of the chat, and its record. *)
Definition dog_record : json :=
  JObj [("title", JStr "Dog"); ("description", JStr "A dog.")].

Definition fenced_dog : string :=
  "```json" ++ String Json.newline (Json.dumps dog_record)
            ++ String Json.newline "```".

Definition cat_file : FileStorage := MkFile "cat.jpg" "JFIF".

Definition upload_cat : Request := MkRequest {[ "image" := cat_file ]} ∅.
Definition upload_nothing : Request := MkRequest ∅ ∅.
Definition upload_unnamed : Request :=
  MkRequest {[ "image" := MkFile EmptyString EmptyString ]} ∅.
Definition view_cat : Request := MkRequest ∅ {[ "filename" := "cat.jpg" ]}.
Definition view_nothing : Request := MkRequest ∅ ∅.

Definition photos : option string := Some "photos".

(** A file with the stem of [cat.jpg] and another extension, and a file
    whose name is an absolute path. *)
Definition cat_jpeg_file : FileStorage := MkFile "cat.jpeg" "JFIF2".
Definition upload_cat_jpeg : Request :=
  MkRequest {[ "image" := cat_jpeg_file ]} ∅.



(** The world after [cat.jpg] was uploaded with every service working. *)
Definition cat_uploaded : World :=
  snd (upload env_ok Json.loads Json.dumps photos upload_cat empty_world).


(* ===================================================================== *)
(** ** Vocabulary of the statements *)
(* ===================================================================== *)

(** The three fixed records of [generative_ai]'s failure paths. *)
Definition is_sentinel (v : json) : Prop :=
  v = upload_error \/ v = invalid_response \/ v = processing_error.

(** Captioning failed during a run with events [evs]: an external call
    failed, or the text the chat answered did not parse. *)
Definition captioning_failed (json_loads : string -> Outcome json)
    (evs : list Event) : Prop :=
  (exists ev, In ev evs /\ ev_ok ev = false) \/
  (exists prompt text e,
      In (MkEvent (SendMessage prompt) (Ok text)) evs /\
      json_loads (strip_fences text) = Raise e).

(** The object stored under [key] in the bucket named by [b], if any. *)
Definition object_at (w : World) (b : option string) (key : string)
  : option string :=
  match b with
  | Some name => w_objects w !! (name, key)
  | None => None
  end.

Definition is_genai_call (c : Call) : bool :=
  match c with
  | GenerativeModel _ | GenaiUploadFile _ _ | StartChat | SendMessage _ => true
  | _ => false
  end.

Definition is_blob_upload (ev : Event) : bool :=
  match ev_call ev with
  | BlobUpload _ _ _ => true
  | _ => false
  end.

(** The names [upload] derives from the uploaded file's name. *)
Definition temp_path_of (file : FileStorage) : string :=
  Py.path_join "/tmp" (filename file).

Definition json_filename_of (name : string) : string :=
  fst (Py.splitext name) ++ ".json".

Definition json_path_of (file : FileStorage) : string :=
  Py.path_join "/tmp" (json_filename_of (filename file)).

(** The record [upload] serialises. *)
Definition metadata_record (title description : json) : json :=
  JObj [("title", title); ("description", description)].

Definition gemini_secret_path : string :=
  "projects/" ++ PROJECT_ID ++ "/secrets/" ++ GEMINI_SECRET_NAME
    ++ "/versions/latest".

Definition credential_secret_path : string :=
  "projects/" ++ PROJECT_ID ++ "/secrets/" ++ SECRET_NAME
    ++ "/versions/latest".

(** Where [get_gcs_credentials] keeps the service account key. *)
Definition credentials_file : string := "/tmp/gcs_service_account.json".

(** The world after [cat.jpeg] was uploaded next, the chat answering
    with the dog record. *)
Definition cat_jpeg_uploaded : World :=
  snd (upload (env_chat fenced_dog) Json.loads Json.dumps photos
              upload_cat_jpeg cat_uploaded).

(** Text without the character of the fence markers. *)
Abbreviation backtick := ("`"%char) (only parsing).

Fixpoint no_backtick (s : string) : bool :=
  match s with
  | EmptyString => true
  | String c rest => negb (Ascii.eqb c backtick) && no_backtick rest
  end.


(** The test of the gallery: [name.endswith(('.jpg', '.jpeg'))]. *)
Definition is_jpeg_name (name : string) : bool :=
  Py.endswith name ".jpg" || Py.endswith name ".jpeg".

(** *** The exits of [upload]

    For a request that carries a named file, with the bucket name set:
    the response, the bucket, the local files and the events (most
    recent first) at each exit of the handler. *)
Section UploadExits.

Variable env : Env.
Variable json_loads : string -> Outcome json.
Variable json_dumps : json -> string.
Variable name : string.
Variable file : FileStorage.
Variable w : World.

(** The world in which captioning starts: after [file.save]. *)
Definition after_save : World :=
  snd (write_file env (temp_path_of file) (stream file) w).

Definition save_ok : Event :=
  MkEvent (FileWrite (temp_path_of file)) (Ok (temp_path_of file)).

(** Captioning returned [ai], with the events [evs_ai]. *)
Definition captioning (ai : json) (evs_ai : list Event) : Prop :=
  exists w_ai,
    generative_ai env json_loads (temp_path_of file) after_save = (Ok ai, w_ai) /\
    w_trace w_ai = (evs_ai ++ w_trace after_save)%list /\
    Forall (fun ev => is_genai_call (ev_call ev) = true) evs_ai.

(** ... and [upload] read [title] and [description] from it. *)
Definition captioned (evs_ai : list Event) (title description : json) : Prop :=
  exists ai,
    captioning ai evs_ai /\
    dict_get ai "title" (JStr "No title present") = Ok title /\
    dict_get ai "description" (JStr "No description present") = Ok description.

(** What the local image file holds when it is sent: the uploaded
    bytes, unless the metadata file was written over it. *)
Definition image_contents (title description : json) : string :=
  if decide (json_path_of file = temp_path_of file)
  then json_dumps (metadata_record title description)
  else stream file.

(** The exits of [upload] on a named file.  In the last two the cleanup
    finds a directory, or a file that is not the process's to remove, at
    a temporary path: [os.remove] raises in the [finally] block and its
    exception replaces the answer. *)
Inductive UploadRun
  : Outcome Response -> gmap (string * string) string -> gmap string string
    -> list Event -> Prop :=
| save_failed e files' :
    files' !! temp_path_of file = None ->
    UploadRun (Ok (Plain "Internal Server Error" 500)) (w_objects w) files'
      [MkEvent (FileWrite (temp_path_of file)) (Raise e)]
| caption_not_a_dict ai evs_ai e files' :
    captioning ai evs_ai ->
    dict_get ai "title" (JStr "No title present") = Raise e ->
    files' !! temp_path_of file = None ->
    UploadRun (Ok (Plain "Internal Server Error" 500)) (w_objects w) files'
      (evs_ai ++ [save_ok])
| metadata_write_failed evs_ai title description e files' :
    captioned evs_ai title description ->
    files' !! temp_path_of file = None ->
    files' !! json_path_of file = None ->
    UploadRun (Ok (Plain "Internal Server Error" 500)) (w_objects w) files'
      (MkEvent (FileWrite (json_path_of file)) (Raise e) :: evs_ai ++ [save_ok])
| image_upload_failed evs_ai title description e files' :
    captioned evs_ai title description ->
    files' !! temp_path_of file = None ->
    files' !! json_path_of file = None ->
    UploadRun (Ok (Plain "File upload failed" 500)) (w_objects w) files'
      (MkEvent (BlobUpload name (temp_path_of file) (filename file)) (Raise e)
         :: MkEvent (FileWrite (json_path_of file)) (Ok (json_path_of file))
         :: evs_ai ++ [save_ok])
| metadata_upload_failed evs_ai title description a e files' :
    captioned evs_ai title description ->
    files' !! temp_path_of file = None ->
    files' !! json_path_of file = None ->
    UploadRun (Ok (Plain "File upload failed" 500))
      (<[(name, filename file) := image_contents title description]> (w_objects w))
      files'
      (MkEvent (BlobUpload name (json_path_of file)
                           (json_filename_of (filename file))) (Raise e)
         :: MkEvent (BlobUpload name (temp_path_of file) (filename file)) (Ok a)
         :: MkEvent (FileWrite (json_path_of file)) (Ok (json_path_of file))
         :: evs_ai ++ [save_ok])
| stored evs_ai title description a a' files' :
    captioned evs_ai title description ->
    files' !! temp_path_of file = None ->
    files' !! json_path_of file = None ->
    UploadRun (Ok (Redirect "view_image" (filename file)))
      (<[(name, json_filename_of (filename file))
           := json_dumps (metadata_record title description)]>
         (<[(name, filename file) := image_contents title description]>
            (w_objects w)))
      files'
      (MkEvent (BlobUpload name (json_path_of file)
                           (json_filename_of (filename file))) (Ok a')
         :: MkEvent (BlobUpload name (temp_path_of file) (filename file)) (Ok a)
         :: MkEvent (FileWrite (json_path_of file)) (Ok (json_path_of file))
         :: evs_ai ++ [save_ok])
| save_blocked files' :
    is_blocked w (temp_path_of file) = true ->
    files' !! temp_path_of file = None ->
    UploadRun (Raise (cannot_remove (temp_path_of file))) (w_objects w) files'
      [MkEvent (FileWrite (temp_path_of file))
               (Raise (cannot_open (temp_path_of file)))]
| metadata_blocked evs_ai title description files' :
    captioned evs_ai title description ->
    is_blocked w (json_path_of file) = true ->
    files' !! temp_path_of file = None ->
    files' !! json_path_of file = None ->
    UploadRun (Raise (cannot_remove (json_path_of file))) (w_objects w) files'
      (MkEvent (FileWrite (json_path_of file))
               (Raise (cannot_open (json_path_of file)))
         :: evs_ai ++ [save_ok]).

End UploadExits.

(* ===================================================================== *)
(** ** Runs of the library models and of the program *)
(* ===================================================================== *)

Example splitext_jpg : Py.splitext "cat.jpg" = ("cat", ".jpg").
Proof. reflexivity. Qed.

Example splitext_hidden : Py.splitext ".bashrc" = (".bashrc", EmptyString).
Proof. reflexivity. Qed.

Example splitext_dir : Py.splitext "a.b/cat" = ("a.b/cat", EmptyString).
Proof. reflexivity. Qed.

Example splitext_two : Py.splitext "x/..a.tar.gz" = ("x/..a.tar", ".gz").
Proof. reflexivity. Qed.

Example path_join_rel : Py.path_join "/tmp" "cat.jpg" = "/tmp/cat.jpg".
Proof. reflexivity. Qed.

Example path_join_abs : Py.path_join "/tmp" "/etc/motd" = "/etc/motd".
Proof. reflexivity. Qed.

Example strip_ex : Py.strip "  a b
 " = "a b".
Proof. reflexivity. Qed.

Example remove_all_ex : Py.remove_all "```" "```json{}```" = "json{}".
Proof. reflexivity. Qed.

Example dumps_then_loads_cat : Json.loads (Json.dumps cat_record) = Ok cat_record.
Proof. vm_compute. reflexivity. Qed.

Example loads_not_json :
  Json.loads "not json" = Raise (MkExn JSONDecodeError "Expecting value").
Proof. vm_compute. reflexivity. Qed.

Example loads_nested :
  Json.loads " [1, -2, [null, true], 2.5e3 ] "
  = Ok (JArr [JInt 1; JInt (-2); JArr [JNull; JBool true]; JFloat "2.5e3"]).
Proof. vm_compute. reflexivity. Qed.

Example loads_duplicate_key :
  Json.loads ("{" ++ Json.dumps_string "a" ++ ": 1, "
                  ++ Json.dumps_string "a" ++ " : true}")
  = Ok (JObj [("a", JBool true)]).
Proof. vm_compute. reflexivity. Qed.

(** The scenario of a working deployment: [cat.jpg] and [cat.json] are
    stored, the view renders the title, the description and a URL. *)
Example upload_cat_then_view :
  fst (upload env_ok Json.loads Json.dumps photos upload_cat empty_world)
  = Ok (Redirect "view_image" "cat.jpg") /\
  w_objects cat_uploaded !! ("photos", "cat.jpg") = Some "JFIF" /\
  w_objects cat_uploaded !! ("photos", "cat.json")
  = Some (Json.dumps cat_record) /\
  w_files cat_uploaded = ∅ /\
  fst (view_image env_ok Json.loads photos view_cat cat_uploaded)
  = Ok (RenderView
          "https://storage.googleapis.com/ok"
          (JStr "Cat") (JStr "A cat.") "#f0f2f5").
Proof. vm_compute. repeat split. Qed.

(** The AI service refuses the image: the metadata stored is the
    upload-error record. *)
Example upload_when_gemini_upload_fails :
  let run := upload env_no_gemini_upload Json.loads Json.dumps photos
                    upload_cat empty_world in
  fst run = Ok (Redirect "view_image" "cat.jpg") /\
  w_objects (snd run) !! ("photos", "cat.json") = Some (Json.dumps upload_error).
Proof. vm_compute. split; reflexivity. Qed.

(** The chat answers with text that is not JSON: the metadata stored is
    the invalid-response record. *)
Example upload_when_answer_is_not_json :
  let run := upload (env_chat "not json") Json.loads Json.dumps photos
                    upload_cat empty_world in
  fst run = Ok (Redirect "view_image" "cat.jpg") /\
  w_objects (snd run) !! ("photos", "cat.json")
  = Some (Json.dumps invalid_response).
Proof. vm_compute. split; reflexivity. Qed.

(** The chat answers with a JSON array: [get] raises inside [upload],
    which answers 500, stores nothing and removes the saved image. *)
Example upload_when_answer_is_an_array :
  let run := upload (env_chat "[1, 2]") Json.loads Json.dumps photos
                    upload_cat empty_world in
  fst run = Ok (Plain "Internal Server Error" 500) /\
  w_objects (snd run) = ∅ /\
  w_files (snd run) = ∅.
Proof. vm_compute. repeat split. Qed.

(** The metadata upload fails: 500, and the image stays in the bucket. *)
Example upload_when_metadata_upload_fails :
  let run := upload (env_no_upload_of ".json") Json.loads Json.dumps photos
                    upload_cat empty_world in
  fst run = Ok (Plain "File upload failed" 500) /\
  w_objects (snd run) !! ("photos", "cat.jpg") = Some "JFIF" /\
  w_objects (snd run) !! ("photos", "cat.json") = None /\
  w_files (snd run) = ∅.
Proof. vm_compute. repeat split. Qed.

(** The image upload fails: 500, and the metadata upload is not tried. *)
Example upload_when_image_upload_fails :
  let run := upload (env_no_upload_of ".jpg") Json.loads Json.dumps photos
                    upload_cat empty_world in
  fst run = Ok (Plain "File upload failed" 500) /\
  w_objects (snd run) = ∅ /\
  List.filter is_blob_upload (w_trace (snd run))
  = [MkEvent (BlobUpload "photos" "/tmp/cat.jpg" "cat.jpg")
             (Raise (MkExn ServiceError "503"))].
Proof. vm_compute. repeat split. Qed.

(** A file named [a.json]: the metadata is written over the saved
    image, both uploads go to the key [a.json], and the cleanup still
    leaves no local file. *)
Example upload_of_a_json_file :
  let run := upload env_ok Json.loads Json.dumps photos
                    (MkRequest {[ "image" := MkFile "a.json" "{}" ]} ∅)
                    empty_world in
  fst run = Ok (Redirect "view_image" "a.json") /\
  w_objects (snd run) !! ("photos", "a.json") = Some (Json.dumps cat_record) /\
  size (w_objects (snd run)) = 1 /\
  w_files (snd run) = ∅.
Proof. vm_compute. repeat split. Qed.

(* ===================================================================== *)
(** ** The AI captioning client *)
(* ===================================================================== *)

(** Proof steps shared by the runs below. *)

Lemma extends_nil {A} (t : list A) : t = ([] ++ t)%list.
Proof. reflexivity. Qed.

Lemma extends_cons {A} (a : A) (l evs t : list A) :
  l = (evs ++ t)%list -> a :: l = ((a :: evs) ++ t)%list.
Proof. intros ->. reflexivity. Qed.

(** The trace of the final world is the initial trace with the new
    events in front. *)
Ltac trace_extends := cbn; repeat apply extends_cons; apply extends_nil.

#[local] Arguments is_blocked : simpl never.

(** [is_blocked] looks at the local files and at the blocked paths only. *)
Lemma is_blocked_ext (w1 w2 : World) (p : string) :
  w_files w1 = w_files w2 -> w_blocked w1 = w_blocked w2 ->
  is_blocked w1 p = is_blocked w2 p.
Proof. unfold is_blocked. intros -> ->. reflexivity. Qed.

Lemma is_blocked_file (w : World) (p : string) :
  is_Some (w_files w !! p) -> is_blocked w p = false.
Proof. unfold is_blocked. intros [data ->]. reflexivity. Qed.

Lemma is_blocked_no_file (w : World) (p : string) :
  is_blocked w p = true -> w_files w !! p = None.
Proof.
  unfold is_blocked. destruct (w_files w !! p); [discriminate | reflexivity].
Qed.

(** Unlinking a file blocks no path, and unblocks no other path. *)
Lemma is_blocked_unlink (w : World) (p q : string) :
  is_blocked w p = false -> is_blocked (unlink q w) p = false.
Proof.
  unfold is_blocked, unlink. cbn. intros Hp.
  destruct (decide (q = p)) as [->|Hne].
  - rewrite lookup_delete_eq. apply bool_decide_eq_false.
    intros [_ Hnot]%elem_of_difference. apply Hnot, elem_of_singleton.
    reflexivity.
  - rewrite lookup_delete_ne by exact Hne.
    destruct (w_files w !! p); [reflexivity|].
    apply bool_decide_eq_false in Hp. apply bool_decide_eq_false.
    intros [Hin _]%elem_of_difference. exact (Hp Hin).
Qed.

Lemma is_blocked_unlink_other (w : World) (p q : string) :
  q <> p -> is_blocked w p = true -> is_blocked (unlink q w) p = true.
Proof.
  unfold is_blocked, unlink. cbn. intros Hne Hp.
  rewrite lookup_delete_ne by exact Hne.
  destruct (w_files w !! p); [discriminate|].
  apply bool_decide_eq_true in Hp. apply bool_decide_eq_true.
  apply elem_of_difference. split; [exact Hp|].
  intros Heq%elem_of_singleton. congruence.
Qed.

(** Unlinking where nothing is leaves the world as it is. *)
Lemma unlink_nothing (w : World) (p : string) :
  w_files w !! p = None -> is_blocked w p = false -> unlink p w = w.
Proof.
  unfold is_blocked, unlink. intros Hfile Hp. rewrite Hfile in Hp.
  apply bool_decide_eq_false in Hp.
  destruct w as [objects files environ key log trace blocked].
  unfold set_blocked, set_files. cbn in *. f_equal.
  - apply delete_id. exact Hfile.
  - apply difference_disjoint_L.
    intros q Hin Heq%elem_of_singleton. subst q. exact (Hp Hin).
Qed.

(** Case analysis on the next answer of the environment: the first call
    whose history is already known. *)
Ltac ask_env :=
  match goal with
  | |- context [env_answer ?e ?h ?c] =>
      lazymatch h with
      | context [env_answer] => fail
      | _ => let E := fresh "Eanswer" in
             destruct (env_answer e h c) eqn:E; cbn
      end
  end.

Ltac ask_write :=
  match goal with
  | |- context [env_write ?e ?h ?p] =>
      lazymatch h with
      | context [env_answer] => fail
      | context [env_write] => fail
      | _ => let E := fresh "Ewrite" in
             destruct (env_write e h p) as [|? [?|]] eqn:E; cbn
      end
  end.

(** Case analysis on what is at the path of the next write. *)
Ltac ask_blocked :=
  match goal with
  | |- context [is_blocked ?w ?p] =>
      let E := fresh "Eblocked" in
      destruct (is_blocked w p) eqn:E; cbn
  end.

Ltac unfold_effects :=
  unfold or_else, not_ in *;
  unfold try_except, try_finally, bind, external, logging, modify, ret, raise,
    lift_outcome, in_world, with_locals in *.

(** Membership in an explicit list of events, decided by the shape of
    the events. *)
Ltac event_cases :=
  repeat match goal with
         | H : In _ (_ :: _) |- _ => destruct H as [H|H]
         | H : In _ [] |- _ => destruct H
         | H : MkEvent _ _ = MkEvent _ _ |- _ => inversion H; clear H; subst
         | H : MkEvent _ _ = ?ev |- _ => is_var ev; subst ev
         end.

Ltac finish_events :=
  intros;
  repeat match goal with
         | H : _ \/ _ |- _ => destruct H
         | H : exists _, _ |- _ => destruct H
         | H : _ /\ _ |- _ => destruct H
         end;
  event_cases;
  try discriminate; try congruence; auto.

Ltac failed_call := left; eexists; split; [left; reflexivity | reflexivity].

Ltac failed_parse :=
  right; do 3 eexists; split; [left; reflexivity | eassumption].

Ltac run_generative_ai :=
  unfold generative_ai, upload_to_gemini; unfold_effects; cbn;
  repeat ask_env;
  try match goal with
      | |- context [?f (strip_fences ?t)] =>
          destruct (f (strip_fences t)) eqn:Eloads; cbn
      end;
  try match goal with
      | |- context [is_JSONDecodeError ?e] =>
          destruct (is_JSONDecodeError e) eqn:Eclass; cbn
      end.

(** [generative_ai] returns a value, touches neither the bucket nor the
    local files, and only talks to the AI service. *)
Lemma generative_ai_run env jl image_file w :
  exists v w' evs,
    generative_ai env jl image_file w = (Ok v, w') /\
    w_trace w' = (evs ++ w_trace w)%list /\
    w_objects w' = w_objects w /\
    w_files w' = w_files w /\
    w_blocked w' = w_blocked w /\
    Forall (fun ev => is_genai_call (ev_call ev) = true) evs.
Proof.
  run_generative_ai.
  all: eexists _, _, _; split; [reflexivity|]; split; [trace_extends|].
  all: repeat split; repeat constructor.
Qed.

(** C3. The AI captioning client never raises: for every image path,
    every environment and every [json.loads], [generative_ai] returns a
    value.  When captioning failed (a call to the service failed, or the
    answer did not parse) the value is one of the three fixed records:
    the upload-error record when the upload step failed, the
    invalid-response record when the stripped text raised a JSON decode
    error; when nothing failed it is the parsed answer as it is. *)
Theorem generative_ai_never_raises env jl image_file w :
  exists v w' evs,
    generative_ai env jl image_file w = (Ok v, w') /\
    w_trace w' = (evs ++ w_trace w)%list /\
    (captioning_failed jl evs -> is_sentinel v) /\
    (forall e,
        In (MkEvent (GenaiUploadFile image_file "image/jpeg") (Raise e)) evs ->
        v = upload_error) /\
    (forall prompt text e,
        In (MkEvent (SendMessage prompt) (Ok text)) evs ->
        jl (strip_fences text) = Raise e ->
        is_JSONDecodeError e = true ->
        v = invalid_response) /\
    (~ captioning_failed jl evs ->
     exists prompt text,
       In (MkEvent (SendMessage prompt) (Ok text)) evs /\
       jl (strip_fences text) = Ok v).
Proof.
  run_generative_ai.
  all: eexists _, _, _; split; [reflexivity|]; split; [trace_extends|].
  all: unfold captioning_failed, is_sentinel.
  all: repeat apply conj.
  all: try solve [finish_events].
  all: try solve [intros Hnot; exfalso; apply Hnot; (failed_call || failed_parse)].
  all: solve [intros _; do 2 eexists; split; [left; reflexivity | assumption]].
Qed.

(* ===================================================================== *)
(** ** Signed URLs *)
(* ===================================================================== *)

(** C8. Signed-URL generation never raises: [generate_temporary_url]
    returns a value for every bucket, key, expiration, world and
    environment.  The value is [None] when the key does not exist in the
    bucket and when any call it makes fails, signing included; a URL is
    returned only for an existing key that the service signed. *)
Theorem generate_temporary_url_never_raises env b key expiration w :
  exists r w' evs,
    generate_temporary_url env b key expiration w = (Ok r, w') /\
    w_trace w' = (evs ++ w_trace w)%list /\
    (object_at w b key = None -> r = None) /\
    ((exists ev, In ev evs /\ ev_ok ev = false) -> r = None) /\
    (forall url, r = Some url ->
       is_Some (object_at w b key) /\
       exists name signature,
         In (MkEvent (GenerateSignedUrl name key expiration) (Ok signature)) evs).
Proof.
  unfold generate_temporary_url, blob_exists, generate_signed_url, bucket_handle.
  unfold_effects.
  destruct b as [[|c s]|]; cbn.
  all: repeat ask_env.
  all: try case_bool_decide; cbn.
  all: repeat ask_env.
  all: eexists _, _, _; split; [reflexivity|]; split; [trace_extends|].
  all: repeat apply conj.
  all: try solve [finish_events].
  all: try solve [intros Hnone;
                  match goal with
                  | H : is_Some _ |- _ =>
                      rewrite Hnone in H; destruct H; discriminate
                  end].
  all: solve [intros url _; split;
              [assumption | do 2 eexists; left; reflexivity]].
Qed.

(* ===================================================================== *)
(** ** Guards at the start of the routes *)
(* ===================================================================== *)

(** C9, as stated, fails for the view route: with the bucket name unset
    a view without a filename is answered 400, not 500. *)
Lemma view_without_filename_unset_bucket :
  Py.truthy None = false /\
  http_status (fst (view_image env_ok Json.loads None view_nothing
                               empty_world)) = 400 /\
  http_status (fst (view_image env_ok Json.loads None view_nothing
                               empty_world)) <> 500.
Proof. repeat split. discriminate. Qed.

(** C9, amended. With the bucket name unset ([None] or empty), [index]
    and [upload] answer 500 at their start and touch nothing.
    [view_image] has no such guard: it first looks at the filename, and
    a request without one (or with an empty one) is answered 400.  With
    a filename, the storage library refuses the nameless bucket before
    any request is sent (a [ValueError] for [None], an [IndexError] for
    the empty name): the exception leaves the handler, so the client is
    answered 500 and the world, its trace included, is as it was. *)
Theorem routes_with_unset_bucket env jl jd b req w :
  Py.truthy b = false ->
  index env b w = (Ok (Plain "GCS_BUCKET_NAME is not set" 500), w) /\
  upload env jl jd b req w = (Ok (Plain "GCS_BUCKET_NAME is not set" 500), w) /\
  (Py.truthy (req_args req !! "filename") = false ->
   view_image env jl b req w = (Ok (Plain "No file specified" 400), w)) /\
  (Py.truthy (req_args req !! "filename") = true ->
   exists e,
     view_image env jl b req w = (Raise e, w) /\
     http_status (fst (view_image env jl b req w)) = 500 /\
     (b = None -> exn_class e = ValueError) /\
     (b = Some EmptyString -> exn_class e = IndexError)).
Proof.
  intros Hb. unfold index, upload. rewrite Hb. cbn.
  split; [reflexivity|]. split; [reflexivity|].
  unfold view_image, blob_exists, bucket_handle. unfold_effects.
  split; intros Hname.
  - destruct (req_args req !! "filename") as [[|c s]|];
      try discriminate; reflexivity.
  - destruct (req_args req !! "filename") as [[|c s]|]; try discriminate.
    destruct b as [[|c' s']|]; try discriminate; cbn.
    + eexists. split; [reflexivity|]. split; [reflexivity|].
      split; [discriminate | reflexivity].
    + eexists. split; [reflexivity|]. split; [reflexivity|].
      split; [reflexivity | discriminate].
Qed.

Lemma routes_with_unset_bucket_witness :
  http_status (fst (index env_ok None empty_world)) = 500 /\
  http_status (fst (upload env_ok Json.loads Json.dumps None view_cat
                           empty_world)) = 500 /\
  exists e,
    view_image env_ok Json.loads None view_cat empty_world
    = (Raise e, empty_world) /\
    exn_class e = ValueError.
Proof.
  destruct (routes_with_unset_bucket env_ok Json.loads Json.dumps None
              view_cat empty_world eq_refl)
    as (Hindex & Hupload & _ & Hview).
  rewrite Hindex, Hupload.
  split; [reflexivity|]. split; [reflexivity|].
  destruct (Hview eq_refl) as (e & Hrun & _ & Hclass & _).
  exists e. split; [exact Hrun | exact (Hclass eq_refl)].
Defined.

(** C4, as stated, fails when the bucket name is unset: the request
    without a file part is answered 500, not 400. *)
Lemma upload_without_file_unset_bucket :
  http_status (fst (upload env_ok Json.loads Json.dumps None upload_nothing
                           empty_world)) = 500 /\
  http_status (fst (upload env_ok Json.loads Json.dumps None upload_nothing
                           empty_world)) <> 400.
Proof. split; [reflexivity | discriminate]. Qed.

(** C4, amended. When the bucket name is set, an upload request with no
    [image] part or with an empty filename is answered 400 and the world
    is left as it was: no object is written, no file is created and no
    external call (to the AI service or to storage) is made. *)
Theorem upload_rejects_missing_file env jl jd b req w :
  Py.truthy b = true ->
  (req_files req !! "image" = None \/
   exists file, req_files req !! "image" = Some file /\
                filename file = EmptyString) ->
  exists body, upload env jl jd b req w = (Ok (Plain body 400), w).
Proof.
  intros Hb Hreq. unfold upload, upload_try, upload_finally, remove_if_exists.
  rewrite Hb. unfold_effects. cbn.
  destruct Hreq as [Hnone | (file & Hfile & Hname)].
  - rewrite Hnone. cbn. eexists. reflexivity.
  - rewrite Hfile, Hname. cbn. eexists. reflexivity.
Qed.

Lemma upload_rejects_missing_file_witness :
  Py.truthy photos = true /\
  (req_files upload_unnamed !! "image" = None \/
   exists file, req_files upload_unnamed !! "image" = Some file /\
                filename file = EmptyString) /\
  exists body,
    upload env_ok Json.loads Json.dumps photos upload_unnamed empty_world
    = (Ok (Plain body 400), empty_world).
Proof.
  assert (H : req_files upload_unnamed !! "image" = None \/
              exists file, req_files upload_unnamed !! "image" = Some file /\
                           filename file = EmptyString).
  { right. eexists. split; [vm_compute; reflexivity | reflexivity]. }
  split; [reflexivity|]. split; [exact H|].
  exact (upload_rejects_missing_file env_ok Json.loads Json.dumps photos
           upload_unnamed empty_world eq_refl H).
Defined.

(* ===================================================================== *)
(** ** Viewing without metadata *)
(* ===================================================================== *)

(** C7, as stated, fails in two ways.  For the empty filename, whose
    metadata key [.json] is not in the (empty) bucket, the answer is
    400.  For [cat.jpg], whose metadata key is not in the bucket either,
    an existence check that cannot reach the service raises out of the
    handler, which the client sees as a 500. *)
Lemma view_without_metadata_not_404 :
  (object_at empty_world photos (json_filename_of EmptyString) = None /\
   view_image env_ok Json.loads photos
              (MkRequest ∅ {[ "filename" := EmptyString ]}) empty_world
   = (Ok (Plain "No file specified" 400), empty_world)) /\
  (object_at empty_world photos (json_filename_of "cat.jpg") = None /\
   fst (view_image env_storage_unreachable Json.loads photos view_cat
                   empty_world)
   = Raise (MkExn ServiceError "connection reset") /\
   http_status (fst (view_image env_storage_unreachable Json.loads photos
                                view_cat empty_world)) = 500).
Proof. vm_compute. repeat split. Qed.

(** C7, amended. For every non-empty filename, when the bucket name is
    set and the existence check itself goes through, a metadata key that
    is not in the bucket gives 404, whatever else the bucket holds (the
    image object included); the existence check is the only call made. *)
Theorem view_image_without_metadata env jl name filename req w a :
  name <> EmptyString ->
  filename <> EmptyString ->
  req_args req !! "filename" = Some filename ->
  env_answer env (w_trace w) (BlobExists name (json_filename_of filename)) = Ok a ->
  w_objects w !! (name, json_filename_of filename) = None ->
  exists w',
    view_image env jl (Some name) req w
    = (Ok (Plain "Metadata not found" 404), w') /\
    w_objects w' = w_objects w /\
    w_trace w'
    = MkEvent (BlobExists name (json_filename_of filename)) (Ok a) :: w_trace w.
Proof.
  intros Hname Hfilename Hreq Hanswer Habsent.
  unfold view_image, blob_exists, bucket_handle. rewrite Hreq.
  destruct filename as [|c s]; [congruence|].
  destruct name as [|c' s']; [congruence|].
  unfold_effects. cbn.
  fold (json_filename_of (String c s)).
  rewrite Hanswer. cbn. rewrite Habsent.
  rewrite bool_decide_false by (intros [? ?]; discriminate).
  cbn. eexists. repeat split.
Qed.

Lemma view_image_without_metadata_witness :
  exists w',
    view_image env_ok Json.loads photos view_cat
      (set_objects (insert ("photos", "cat.jpg") "JFIF") empty_world)
    = (Ok (Plain "Metadata not found" 404), w').
Proof.
  destruct (view_image_without_metadata env_ok Json.loads "photos" "cat.jpg"
              view_cat
              (set_objects (insert ("photos", "cat.jpg") "JFIF") empty_world)
              "ok")
    as (w' & Hrun & _); try (vm_compute; congruence).
  exists w'. exact Hrun.
Defined.

(* ===================================================================== *)
(** ** Process initialisation *)
(* ===================================================================== *)

(** C2, as stated, fails: when the secret store refuses the Gemini key,
    the failure is logged and raised, and [initialize_clients] raises
    with it, so that no storage client is constructed. *)
Lemma gemini_key_failure_leaves_no_storage_client :
  let run := initialize_clients env_no_gemini_key empty_world in
  In (MkEvent (AccessSecretVersion gemini_secret_path)
              (Raise (MkExn ServiceError "permission denied")))
     (w_trace (snd run)) /\
  In (ERROR, "Failed to retrieve Gemini API Key: permission denied")
     (w_log (snd run)) /\
  ~ (exists client, fst run = Ok client) /\
  ~ (exists answer, In (MkEvent StorageClient answer) (w_trace (snd run))).
Proof.
  vm_compute. repeat split.
  - left. reflexivity.
  - left. reflexivity.
  - intros [client H]. discriminate.
  - intros [answer H]. finish_events.
Qed.

(** C2, amended. In every run of the initialisation in which fetching
    the Gemini key failed, the failure is logged as an error and raised
    to the caller of [get_gcs_credentials]; [initialize_clients] raises
    the same exception, and [storage.Client()] is never called: the
    storage client is not constructed. *)
Theorem gemini_key_failure_aborts_initialization env w :
  exists r w' evs,
    initialize_clients env w = (r, w') /\
    w_trace w' = (evs ++ w_trace w)%list /\
    forall e,
      In (MkEvent (AccessSecretVersion gemini_secret_path) (Raise e)) evs ->
      r = Raise e /\
      get_gcs_credentials env w = (Raise e, w') /\
      In (ERROR, "Failed to retrieve Gemini API Key: " ++ exn_msg e) (w_log w') /\
      forall answer, ~ In (MkEvent StorageClient answer) evs.
Proof.
  unfold initialize_clients, get_gcs_credentials, write_file.
  unfold_effects. cbn.
  ask_env; [ask_env|]; [ask_blocked|..]; [|ask_write|..];
    [|ask_env|..]; [|ask_env|..].
  all: eexists _, _, _; split; [reflexivity|]; split; [trace_extends|].
  all: intros e0 Hin; event_cases; try discriminate.
  repeat split.
  - cbn. left. reflexivity.
  - intros answer Hin. finish_events.
Qed.

Example initialization_with_all_secrets :
  exists client w',
    initialize_clients env_ok empty_world = (Ok client, w') /\
    w_genai_key w' = Some "ok" /\
    w_environ w' !! "GOOGLE_APPLICATION_CREDENTIALS"
    = Some "/tmp/gcs_service_account.json".
Proof. eexists _, _. vm_compute. repeat split. Qed.

(* ===================================================================== *)
(** ** The upload pipeline *)
(* ===================================================================== *)

Lemma path_join_tmp_nonempty (b : string) :
  Py.path_join "/tmp" b <> EmptyString.
Proof.
  unfold Py.path_join.
  destruct (Py.startswith b "/") eqn:Hslash.
  - destruct b; [discriminate Hslash | discriminate].
  - simpl. discriminate.
Qed.

#[local] Arguments Py.path_join : simpl never.
#[local] Arguments Py.splitext : simpl never.
#[local] Arguments String.append : simpl never.
#[local] Arguments remove_if_exists : simpl never.

(** One clause of the cleanup unlinks its path when a file or nothing is
    there, and raises when something else is. *)
Lemma remove_if_exists_run (p : string) (l : UploadLocals) (w : World) :
  p <> EmptyString ->
  is_blocked w p = false ->
  remove_if_exists (Some p) (l, w) = (Ok tt, (l, unlink p w)).
Proof.
  intros Hp Hfree. destruct p as [|c s]; [congruence|].
  unfold remove_if_exists, path_exists, os_remove. unfold_effects. cbn.
  rewrite Hfree.
  destruct (w_files w !! String c s) as [data|] eqn:Hlookup; cbn.
  - rewrite Hlookup. reflexivity.
  - rewrite unlink_nothing by assumption. reflexivity.
Qed.

Lemma remove_if_exists_blocked (p : string) (l : UploadLocals) (w : World) :
  p <> EmptyString ->
  is_blocked w p = true ->
  remove_if_exists (Some p) (l, w)
  = (Raise (cannot_remove p), (l, w)).
Proof.
  intros Hp Hblocked. pose proof (is_blocked_no_file _ _ Hblocked) as Hfile.
  destruct p as [|c s]; [congruence|].
  unfold remove_if_exists, path_exists, os_remove. unfold_effects. cbn.
  rewrite Hblocked, Hfile. cbn. rewrite Hfile, Hblocked. reflexivity.
Qed.

(** [upload_to_gcs] on an existing local file: one call to the service,
    and the object is written exactly when the call succeeds. *)
Lemma upload_to_gcs_run env name source dest data w :
  name <> EmptyString ->
  w_files w !! source = Some data ->
  upload_to_gcs env (Some name) source dest w
  = match env_answer env (w_trace w) (BlobUpload name source dest) with
    | Ok a =>
        (Ok true,
         add_log INFO ("Uploaded " ++ dest ++ " to GCS successfully.")
           (set_objects (insert (name, dest) data)
              (add_event (MkEvent (BlobUpload name source dest) (Ok a)) w)))
    | Raise e =>
        (Ok false,
         add_log ERROR ("Failed to upload " ++ source ++ " to GCS: " ++ exn_msg e)
           (add_event (MkEvent (BlobUpload name source dest) (Raise e)) w))
    end.
Proof.
  intros Hname Hsource. destruct name as [|c s]; [congruence|].
  unfold upload_to_gcs, blob_upload_from_filename, bucket_handle.
  unfold_effects. cbn. rewrite Hsource. cbn.
  destruct (env_answer env (w_trace w) (BlobUpload (String c s) source dest));
    reflexivity.
Qed.

(** Nothing but a file of the process, or nothing at all, is at a path:
    a hypothesis says so, or a file was written there. *)
Ltac unblocked :=
  repeat apply is_blocked_unlink;
  first [ assumption
        | match goal with
          | H : is_blocked ?w ?p = false |- is_blocked _ ?p = false =>
              rewrite (is_blocked_ext _ w) by reflexivity; exact H
          end
        | apply is_blocked_file; cbn;
          repeat match goal with
                 | H : w_files _ = _ |- _ => rewrite H
                 end;
          repeat (rewrite lookup_insert; case_decide);
          first [eexists; reflexivity | congruence] ].

(** After the cleanup neither path is left. *)
Ltac cleaned :=
  first [ apply lookup_delete_eq
        | rewrite lookup_delete; case_decide;
          [reflexivity | apply lookup_delete_eq] ].

(** The trace equation when the new events are known. *)
Lemma trace_around {A} (pre middle : list A) (last : A) (t : list A) :
  (pre ++ middle ++ last :: t)%list = ((pre ++ middle ++ [last]) ++ t)%list.
Proof. rewrite <- !app_assoc. reflexivity. Qed.

Ltac trace_known Htrace :=
  cbn; rewrite Htrace; unfold save_ok;
  first [ exact (trace_around [] _ _ _)
        | exact (trace_around [_] _ _ _)
        | exact (trace_around [_; _] _ _ _)
        | exact (trace_around [_; _; _] _ _ _)
        | exact (trace_around [_; _; _; _] _ _ _) ].

Lemma extends_app {A} (pre l evs t : list A) :
  l = (evs ++ t)%list -> (pre ++ l)%list = ((pre ++ evs) ++ t)%list.
Proof. intros ->. apply app_assoc. Qed.

(** Every run of [upload] on a named file, with the bucket name set,
    leaves by one of the exits of [UploadRun]. *)
Lemma upload_run env jl jd name file req w :
  name <> EmptyString ->
  req_files req !! "image" = Some file ->
  filename file <> EmptyString ->
  exists r w' evs,
    upload env jl jd (Some name) req w = (r, w') /\
    w_trace w' = (evs ++ w_trace w)%list /\
    UploadRun env jl jd name file w r (w_objects w') (w_files w') evs.
Proof.
  intros Hname Hfile Hfn.
  pose proof (path_join_tmp_nonempty (filename file)) as Htp.
  pose proof (path_join_tmp_nonempty (json_filename_of (filename file))) as Hjp.
  unfold upload, upload_try, upload_finally.
  destruct name as [|c s] eqn:Ename; [congruence|]. rewrite <- Ename in *.
  assert (Htruthy : Py.truthy (Some name) = true) by (rewrite Ename; reflexivity).
  rewrite Htruthy, Hfile.
  destruct (filename file) as [|c' s'] eqn:Efn; [congruence|].
  rewrite <- Efn in *.
  assert (Heqb : String.eqb (filename file) EmptyString = false)
    by (rewrite Efn; reflexivity).
  rewrite Heqb.
  fold (json_filename_of (filename file)).
  fold (temp_path_of file) in *. fold (json_path_of file) in *.
  unfold write_file at 1. unfold_effects. unfold set_temp_path, get_locals. cbn.
  ask_blocked.
  { (* something that is not a file of the process is at the path *)
    rewrite remove_if_exists_blocked
      by first [assumption | rewrite (is_blocked_ext _ w) by reflexivity; assumption].
    cbn. eexists _, _, _. split; [reflexivity|]. split; [trace_extends|].
    cbn. apply save_blocked; [assumption | apply is_blocked_no_file; assumption]. }
  ask_write.
  2, 3: rewrite remove_if_exists_run by first [assumption | unblocked]; cbn.
  2, 3: eexists _, _, _; split; [reflexivity|]; split; [trace_extends|].
  2, 3: cbn; apply save_failed; apply lookup_delete_eq.
  (* the file is saved: captioning *)
  match goal with
  | |- context [generative_ai env jl ?p ?w1] =>
      destruct (generative_ai_run env jl p w1)
        as (ai & w2 & evs2 & Hai & Htr2 & Hobj2 & Hfiles2 & Hblocked2 & Hgen)
  end.
  rewrite Hai. cbn in Htr2, Hobj2, Hfiles2, Hblocked2.
  assert (Hcaptioning : captioning env jl file w ai evs2).
  { exists w2. unfold after_save, write_file. rewrite Eblocked, Ewrite. cbn.
    repeat split; assumption. }
  destruct (dict_get ai "title" (JStr "No title present")) as [title|e] eqn:Etitle;
    cbn.
  2: { rewrite remove_if_exists_run by first [assumption | unblocked].
       cbn.
       eexists _, _, _. split; [reflexivity|]. split; cycle 1.
       - cbn. rewrite Hobj2.
         eapply caption_not_a_dict; [exact Hcaptioning | exact Etitle | cleaned].
       - cbn. rewrite Htr2. apply (extends_app evs2 _ [_]). trace_extends. }
  destruct (dict_get ai "description" (JStr "No description present"))
    as [description|e] eqn:Edescription; cbn.
  2: { destruct ai; discriminate. }
  assert (Hcaptioned : captioned env jl file w evs2 title description)
    by (exists ai; auto).
  fold (metadata_record title description).
  unfold write_file at 1. cbn. ask_blocked.
  { (* something that is not a file of the process is at the metadata path *)
    pose proof (is_blocked_no_file _ _ Eblocked0) as Hnone.
    assert (Hsaved : w_files w2 !! temp_path_of file = Some (stream file))
      by (rewrite Hfiles2; apply lookup_insert_eq).
    assert (Hne : temp_path_of file <> json_path_of file) by congruence.
    rewrite remove_if_exists_run by first [assumption | unblocked].
    cbn.
    rewrite remove_if_exists_blocked
      by first [ assumption
               | apply is_blocked_unlink_other; [assumption|];
                 rewrite (is_blocked_ext _ w2) by reflexivity; assumption ].
    cbn. eexists _, _, _. split; [reflexivity|]. split; cycle 1.
    - cbn. rewrite Hobj2. eapply metadata_blocked.
      + exact Hcaptioned.
      + revert Eblocked0. unfold is_blocked.
        rewrite Hfiles2, Hblocked2, lookup_insert_ne by exact Hne.
        trivial.
      + cleaned.
      + rewrite lookup_delete_ne by exact Hne. exact Hnone.
    - trace_known Htr2. }
  ask_write.
  2, 3: repeat (rewrite remove_if_exists_run
                  by first [assumption | unblocked]; cbn).
  2, 3: eexists _, _, _; split; [reflexivity|]; split; cycle 1.
  2, 4: cbn; rewrite Hobj2; eapply metadata_write_failed; [exact Hcaptioned | cleaned | cleaned].
  2, 3: trace_known Htr2.
  (* both files are written: the two uploads *)
  assert (Himg : <[json_path_of file := jd (metadata_record title description)]>
                   (w_files w2) !! temp_path_of file
                 = Some (image_contents jd file title description)).
  { rewrite Hfiles2, lookup_insert. unfold image_contents.
    case_decide; [reflexivity | apply lookup_insert_eq]. }
  erewrite upload_to_gcs_run; [|assumption|exact Himg].
  cbn. ask_env.
  - erewrite upload_to_gcs_run; [|assumption|cbn; apply lookup_insert_eq].
    cbn. ask_env.
    all: repeat (rewrite remove_if_exists_run
                   by first [assumption | unblocked]; cbn).
    all: eexists _, _, _; split; [reflexivity|]; split; cycle 1.
    + cbn. rewrite Hobj2. eapply stored; [exact Hcaptioned | cleaned | cleaned].
    + trace_known Htr2.
    + cbn. rewrite Hobj2. eapply metadata_upload_failed; [exact Hcaptioned | cleaned | cleaned].
    + trace_known Htr2.
  - repeat (rewrite remove_if_exists_run
              by first [assumption | unblocked]; cbn).
    eexists _, _, _; split; [reflexivity|]; split; cycle 1.
    + cbn. rewrite Hobj2. eapply image_upload_failed; [exact Hcaptioned | cleaned | cleaned].
    + trace_known Htr2.
Qed.


(** The exits of [upload] before its [try] block does anything: the
    world is left as it was. *)
Lemma upload_guard env jl jd b req w :
  Py.truthy b = false \/
  req_files req !! "image" = None \/
  (exists file, req_files req !! "image" = Some file /\
                filename file = EmptyString) ->
  exists body status, upload env jl jd b req w = (Ok (Plain body status), w).
Proof.
  intros Hguard. unfold upload, upload_try, upload_finally.
  destruct (Py.truthy b) eqn:Hb; cbn; [|eexists _, _; reflexivity].
  destruct Hguard as [Hfalse | [Hnone | (file & Hfile & Hname)]];
    [discriminate | rewrite Hnone | rewrite Hfile, Hname];
    unfold_effects; cbn; eexists _, _; reflexivity.
Qed.

(** A request either stops at a guard or carries a named file for a
    named bucket. *)
Lemma upload_request_cases (b : option string) (req : Request) :
  (Py.truthy b = false \/
   req_files req !! "image" = None \/
   (exists file, req_files req !! "image" = Some file /\
                 filename file = EmptyString)) \/
  (exists name file,
      b = Some name /\ name <> EmptyString /\
      req_files req !! "image" = Some file /\
      filename file <> EmptyString).
Proof.
  destruct b as [[|c s]|]; [left; left; reflexivity | | left; left; reflexivity].
  destruct (req_files req !! "image") as [file|] eqn:Hfile; [|left; auto].
  destruct (filename file) as [|c' s'] eqn:Hname.
  - left. right. right. exists file. auto.
  - right. exists (String c s), file. rewrite Hname. repeat split; congruence.
Qed.

Lemma genai_events_no_file_write evs path answer :
  Forall (fun ev => is_genai_call (ev_call ev) = true) evs ->
  ~ In (MkEvent (FileWrite path) answer) evs.
Proof.
  intros Hgen Hin. rewrite Forall_forall in Hgen.
  apply list_elem_of_In, Hgen in Hin. discriminate.
Qed.

Lemma genai_events_no_blob_upload evs bucket source dest answer :
  Forall (fun ev => is_genai_call (ev_call ev) = true) evs ->
  ~ In (MkEvent (BlobUpload bucket source dest) answer) evs.
Proof.
  intros Hgen Hin. rewrite Forall_forall in Hgen.
  apply list_elem_of_In, Hgen in Hin. discriminate.
Qed.

Lemma genai_events_filter_blob_upload evs :
  Forall (fun ev => is_genai_call (ev_call ev) = true) evs ->
  List.filter is_blob_upload evs = [].
Proof.
  induction 1 as [|ev evs Hev _ IH]; [reflexivity|].
  cbn. rewrite IH. unfold is_blob_upload.
  destruct (ev_call ev); try discriminate; reflexivity.
Qed.

(** Case analysis on an exit of [upload] and on an event of its run. *)
Ltac upload_exit Hrun :=
  inversion Hrun; subst; clear Hrun;
  repeat match goal with
         | H : captioned _ _ _ _ _ _ _ |- _ =>
             destruct H as (? & ? & ? & ?)
         | H : captioning _ _ _ _ _ _ |- _ =>
             destruct H as (? & ? & ? & ?)
         end.

Ltac upload_event_cases :=
  repeat match goal with
         | H : In _ (_ :: _) |- _ => destruct H as [H|H]
         | H : In _ (_ ++ _)%list |- _ => apply in_app_or in H; destruct H as [H|H]
         | H : In _ [] |- _ => destruct H
         | H : save_ok _ = MkEvent _ _ |- _ => unfold save_ok in H
         | H : MkEvent _ _ = MkEvent _ _ |- _ => inversion H; clear H; subst
         | H : In (MkEvent (FileWrite _) _) ?evs,
           G : Forall _ ?evs |- _ =>
             exfalso; exact (genai_events_no_file_write _ _ _ G H)
         | H : In (MkEvent (BlobUpload _ _ _) _) ?evs,
           G : Forall _ ?evs |- _ =>
             exfalso; exact (genai_events_no_blob_upload _ _ _ _ _ G H)
         end.


(** C5. In every run of [upload] in which an upload to the bucket
    reported failure (the image's or the metadata's), the answer is the
    500 [File upload failed]; nothing is rolled back: every object that
    was in the bucket before is still there, and so is the object of
    every upload of the run that succeeded. *)
Theorem upload_storage_failure_is_500 env jl jd b req w :
  exists r w' evs,
    upload env jl jd b req w = (r, w') /\
    w_trace w' = (evs ++ w_trace w)%list /\
    ((exists bucket source dest e,
         In (MkEvent (BlobUpload bucket source dest) (Raise e)) evs) ->
     r = Ok (Plain "File upload failed" 500) /\
     (forall key, is_Some (w_objects w !! key) -> is_Some (w_objects w' !! key)) /\
     (forall bucket source dest a,
         In (MkEvent (BlobUpload bucket source dest) (Ok a)) evs ->
         is_Some (w_objects w' !! (bucket, dest)))).
Proof.
  destruct (upload_request_cases b req)
    as [Hguard | (name & file & -> & Hname & Hfile & Hfn)].
  - destruct (upload_guard env jl jd b req w Hguard) as (body & status & Hrun).
    exists (Ok (Plain body status)), w, []. split; [assumption|]. split; [reflexivity|].
    intros (? & ? & ? & ? & []).
  - destruct (upload_run env jl jd name file req w Hname Hfile Hfn)
      as (r & w' & evs & Hrun & Htrace & Hexit).
    exists r, w', evs. split; [assumption|]. split; [assumption|].
    intros (bucket & source & dest & e & Hfailed).
    upload_exit Hexit; upload_event_cases.
    + (* the image upload failed *)
      repeat split; [auto|].
      intros bucket' source' dest' a' Hin. upload_event_cases.
    + (* the metadata upload failed *)
      repeat split.
      * intros key Hkey. rewrite lookup_insert. case_decide; eauto.
      * intros bucket' source' dest' a' Hin. upload_event_cases.
        rewrite lookup_insert_eq. eauto.
Qed.

(** C10. [upload] sends the image before the metadata and stops at the
    first failure.  The uploads of a run (most recent first) are: none,
    with the bucket untouched; or the failed image upload alone, with
    the bucket untouched; or the image upload, which succeeded, followed
    by the metadata upload, with the image object written and the
    metadata object written exactly when its upload succeeded.  So the
    bucket never gains a metadata object without the image object. *)
Theorem upload_sends_image_first env jl jd b req w :
  exists r w' evs,
    upload env jl jd b req w = (r, w') /\
    w_trace w' = (evs ++ w_trace w)%list /\
    ((List.filter is_blob_upload evs = [] /\ w_objects w' = w_objects w) \/
     (exists name file e,
         req_files req !! "image" = Some file /\
         List.filter is_blob_upload evs
         = [MkEvent (BlobUpload name (temp_path_of file) (filename file))
                    (Raise e)] /\
         w_objects w' = w_objects w) \/
     (exists name file a answer,
         req_files req !! "image" = Some file /\
         List.filter is_blob_upload evs
         = [MkEvent (BlobUpload name (json_path_of file)
                                (json_filename_of (filename file))) answer;
            MkEvent (BlobUpload name (temp_path_of file) (filename file))
                    (Ok a)] /\
         exists image metadata,
           let with_image := <[(name, filename file) := image]> (w_objects w) in
           w_objects w'
           = match answer with
             | Ok _ =>
                 <[(name, json_filename_of (filename file)) := metadata]>
                   with_image
             | Raise _ => with_image
             end)).
Proof.
  destruct (upload_request_cases b req)
    as [Hguard | (name & file & -> & Hname & Hfile & Hfn)].
  - destruct (upload_guard env jl jd b req w Hguard) as (body & status & Hrun).
    exists (Ok (Plain body status)), w, []. repeat split; [assumption|]. left. split; reflexivity.
  - destruct (upload_run env jl jd name file req w Hname Hfile Hfn)
      as (r & w' & evs & Hrun & Htrace & Hexit).
    exists r, w', evs. split; [assumption|]. split; [assumption|].
    upload_exit Hexit; cbn;
      rewrite ?List.filter_app, ?genai_events_filter_blob_upload by assumption;
      cbn.
    + left. split; reflexivity.
    + left. split; reflexivity.
    + left. split; reflexivity.
    + right. left. exists name, file, e. repeat split. assumption.
    + right. right. exists name, file, a, (Raise e). repeat split; [assumption|].
      eexists _, EmptyString. reflexivity.
    + right. right. exists name, file, a, (Ok a'). repeat split; [assumption|].
      eexists _, _. reflexivity.
    + left. split; reflexivity.
    + left. split; reflexivity.
Qed.

(* ===================================================================== *)
(** ** Viewing what was uploaded *)
(* ===================================================================== *)

(** A view of a file whose metadata object parses to a record and whose
    image object exists renders the record's title and description,
    unless one of the view's own calls fails. *)
Lemma view_image_run env jl name filename req w text title description :
  name <> EmptyString ->
  filename <> EmptyString ->
  req_args req !! "filename" = Some filename ->
  w_objects w !! (name, json_filename_of filename) = Some text ->
  jl text = Ok (metadata_record title description) ->
  is_Some (w_objects w !! (name, filename)) ->
  exists r w' evs,
    view_image env jl (Some name) req w = (r, w') /\
    w_trace w' = (evs ++ w_trace w)%list /\
    (Forall (fun ev => ev_ok ev = true) evs ->
     exists url bg_color, r = Ok (RenderView url title description bg_color)).
Proof.
  intros Hname Hfilename Hreq Hmeta Hloads Himage.
  unfold view_image, generate_temporary_url, blob_exists, blob_download_as_text,
    generate_signed_url, bucket_handle, getenv.
  rewrite Hreq.
  destruct filename as [|c s] eqn:Efilename; [congruence|].
  rewrite <- Efilename in *.
  destruct name as [|c' s'] eqn:Ename; [congruence|].
  rewrite <- Ename in *.
  fold (json_filename_of filename).
  destruct Himage as [image Himage].
  unfold metadata_record in Hloads.
  unfold_effects. cbn.
  ask_env; [rewrite Hmeta; cbn; ask_env|]; [rewrite Hmeta, Hloads; cbn; ask_env|..];
    [rewrite Himage; cbn; ask_env|..].
  all: try match goal with
           | |- context [is_JSONDecodeError ?e] =>
               destruct (is_JSONDecodeError e); cbn
           end.
  all: eexists _, _, _; split; [reflexivity|]; split; [trace_extends|].
  all: intros Hall;
    repeat match goal with
           | H : Forall _ (_ :: _) |- _ => inversion H; clear H; subst
           end;
    try discriminate.
  eexists _, _. reflexivity.
Qed.

(** C1, as stated, fails when the service refuses to sign the image's
    URL: the upload of [cat.jpg] succeeds (redirect), and the view of
    [cat.jpg] that follows answers 500 instead of the title and
    description. *)
Lemma view_after_upload_without_signing :
  let up := upload env_no_signing Json.loads Json.dumps photos upload_cat
                   empty_world in
  fst up = Ok (Redirect "view_image" "cat.jpg") /\
  fst (view_image env_no_signing Json.loads photos view_cat (snd up))
  = Ok (Plain "Error generating image URL" 500).
Proof. vm_compute. split; reflexivity. Qed.

(** C1, amended. After an upload that succeeded (it answered with the
    redirect), a view of the same filename in which every call of the
    view itself succeeds (the two existence checks, the download and the
    signing) renders exactly the title and description of that upload:
    those [upload] read from what [generative_ai] returned in the world
    after the save (the AI answer's fields, the placeholder for a
    missing field, or a sentinel's fields).  Both handlers derive the
    metadata key as the filename with its extension replaced by
    [.json]; [json.loads] is assumed to read back the record that
    [json.dumps] printed. *)
Theorem view_after_upload env jl jd b req file view_req w w_up
    ai w_ai title description r w_view evs :
  req_files req !! "image" = Some file ->
  upload env jl jd b req w = (Ok (Redirect "view_image" (filename file)), w_up) ->
  generative_ai env jl (temp_path_of file) (after_save env file w) = (Ok ai, w_ai) ->
  dict_get ai "title" (JStr "No title present") = Ok title ->
  dict_get ai "description" (JStr "No description present") = Ok description ->
  jl (jd (metadata_record title description))
  = Ok (metadata_record title description) ->
  req_args view_req !! "filename" = Some (filename file) ->
  view_image env jl b view_req w_up = (r, w_view) ->
  w_trace w_view = (evs ++ w_trace w_up)%list ->
  Forall (fun ev => ev_ok ev = true) evs ->
  exists url bg_color, r = Ok (RenderView url title description bg_color).
Proof.
  intros Hfile Hupload Hai Htitle Hdescription Hcodec Hview_req Hview Htrace Hall.
  destruct (upload_request_cases b req)
    as [Hguard | (name & file' & -> & Hname & Hfile' & Hfn)].
  { destruct (upload_guard env jl jd b req w Hguard) as (body & status & Hrun).
    rewrite Hrun in Hupload. discriminate. }
  assert (file' = file) by congruence. subst file'.
  destruct (upload_run env jl jd name file req w Hname Hfile Hfn)
    as (r_up & w_up' & evs_up & Hrun & _ & Hexit).
  rewrite Hrun in Hupload. injection Hupload as -> ->.
  inversion Hexit as [ | | | | | evs_ai title' description' a a' files' Hcaptioned
                               Htp Hjp Hr Hobjects Hfiles Hevs | | ].
  destruct Hcaptioned as (ai' & (w_ai' & Hai' & _) & Htitle' & Hdescription').
  rewrite Hai in Hai'. injection Hai' as <- <-.
  assert (title' = title) by congruence.
  assert (description' = description) by congruence.
  subst title' description'.
  destruct (view_image_run env jl name (filename file) view_req w_up
              (jd (metadata_record title description)) title description)
    as (r' & w_view' & evs' & Hview' & Htrace' & Hrender); try assumption.
  - rewrite <- Hobjects. apply lookup_insert_eq.
  - rewrite <- Hobjects, lookup_insert. case_decide; [eauto|].
    rewrite lookup_insert_eq. eauto.
  - rewrite Hview' in Hview. injection Hview as <- <-.
    rewrite Htrace' in Htrace. apply app_inv_tail in Htrace. subst evs'.
    exact (Hrender Hall).
Qed.

Lemma view_after_upload_witness :
  exists url bg_color,
    fst (view_image env_ok Json.loads photos view_cat cat_uploaded)
    = Ok (RenderView url (JStr "Cat") (JStr "A cat.") bg_color).
Proof.
  pose (run := view_image env_ok Json.loads photos view_cat cat_uploaded).
  apply (view_after_upload env_ok Json.loads Json.dumps photos upload_cat
           cat_file view_cat empty_world cat_uploaded cat_record
           (snd (generative_ai env_ok Json.loads (temp_path_of cat_file)
                               (after_save env_ok cat_file empty_world)))
           (JStr "Cat") (JStr "A cat.") (fst run) (snd run)
           (firstn 4 (w_trace (snd run)))).
  all: try (vm_compute; reflexivity).
  vm_compute. repeat constructor.
Defined.

(* ===================================================================== *)
(** ** Further properties: process initialisation *)
(* ===================================================================== *)

Ltac run_initialization :=
  unfold initialize_clients, get_gcs_credentials, write_file;
  unfold_effects; cbn;
  repeat first [ask_env | ask_blocked | ask_write];
  (eexists _, _, _; split; [reflexivity|]; split; [trace_extends|]).

(** X1. A failure to fetch the storage credential is fatal and silent:
    [get_gcs_credentials] raises it at once, and with it
    [initialize_clients]; nothing is written to the local files, the
    process environment and the AI key are left as they were, and,
    unlike the failure of the AI key, nothing is logged. *)
Theorem credential_failure_is_fatal env w :
  exists r w' evs,
    initialize_clients env w = (r, w') /\
    w_trace w' = (evs ++ w_trace w)%list /\
    forall e,
      In (MkEvent (AccessSecretVersion credential_secret_path) (Raise e)) evs ->
      r = Raise e /\
      get_gcs_credentials env w = (Raise e, w') /\
      w_files w' = w_files w /\
      w_environ w' = w_environ w /\
      w_genai_key w' = w_genai_key w /\
      w_log w' = w_log w /\
      forall path answer, ~ In (MkEvent (FileWrite path) answer) evs.
Proof.
  run_initialization.
  all: intros e0 Hin; event_cases; try discriminate.
  repeat split. intros path answer Hin. finish_events.
Qed.

(** X2. When [get_gcs_credentials] returns, it returns the path of the
    credentials file; that file holds the payload the secret store
    answered for the credential, [GOOGLE_APPLICATION_CREDENTIALS] names
    it, the AI client is configured with the payload answered for the
    AI key, and the last log line reports it.  The four calls were made
    in the order: client, credential, file, AI key. *)
Theorem get_gcs_credentials_postcondition env w :
  exists r w',
    get_gcs_credentials env w = (r, w') /\
    forall path,
      r = Ok path ->
      path = credentials_file /\
      exists client secret key,
        w_trace w'
        = MkEvent (AccessSecretVersion gemini_secret_path) (Ok key)
            :: MkEvent (FileWrite credentials_file) (Ok credentials_file)
            :: MkEvent (AccessSecretVersion credential_secret_path) (Ok secret)
            :: MkEvent SecretManagerServiceClient (Ok client)
            :: w_trace w /\
        w_files w' !! credentials_file = Some secret /\
        w_environ w' !! "GOOGLE_APPLICATION_CREDENTIALS" = Some credentials_file /\
        w_genai_key w' = Some key /\
        w_log w' = (INFO, "Gemini AI API Key successfully configured.") :: w_log w /\
        w_objects w' = w_objects w.
Proof.
  unfold get_gcs_credentials, write_file. unfold_effects. cbn.
  repeat first [ask_env | ask_blocked | ask_write].
  all: eexists _, _; split; [reflexivity|].
  all: intros path Hpath; try discriminate.
  injection Hpath as <-. split; [reflexivity|].
  eexists _, _, _. cbn. repeat split.
  - apply lookup_insert_eq.
  - apply lookup_insert_eq.
Qed.

(** X3. [initialize_clients] constructs the storage client last: in any
    run in which [storage.Client()] is called, both secrets had been
    fetched, the credentials file written and the environment variable
    set before the call; and the handle the run returns is the one the
    constructor answered. *)
Theorem storage_client_needs_both_secrets env w :
  exists r w' evs,
    initialize_clients env w = (r, w') /\
    w_trace w' = (evs ++ w_trace w)%list /\
    forall answer,
      In (MkEvent StorageClient answer) evs ->
      r = answer /\
      exists client secret key,
        evs = [MkEvent StorageClient answer;
               MkEvent (AccessSecretVersion gemini_secret_path) (Ok key);
               MkEvent (FileWrite credentials_file) (Ok credentials_file);
               MkEvent (AccessSecretVersion credential_secret_path) (Ok secret);
               MkEvent SecretManagerServiceClient (Ok client)] /\
        w_files w' !! credentials_file = Some secret /\
        w_environ w' !! "GOOGLE_APPLICATION_CREDENTIALS" = Some credentials_file /\
        w_genai_key w' = Some key.
Proof.
  run_initialization.
  all: intros answer Hin; event_cases; try discriminate.
  all: split; [reflexivity|]; eexists _, _, _; cbn; repeat split;
    apply lookup_insert_eq.
Qed.

(* ===================================================================== *)
(** ** Further properties: the gateways *)
(* ===================================================================== *)

(** X4. [upload_to_gemini] never raises: it makes one call to the AI
    service and returns its handle, or [None] after logging the error
    when the call failed; the bucket and the local files are not
    touched. *)
Theorem upload_to_gemini_never_raises env path mime_type w :
  exists r w',
    upload_to_gemini env path mime_type w = (Ok r, w') /\
    w_objects w' = w_objects w /\
    w_files w' = w_files w /\
    w_trace w'
    = MkEvent (GenaiUploadFile path mime_type)
              (env_answer env (w_trace w) (GenaiUploadFile path mime_type))
        :: w_trace w /\
    match env_answer env (w_trace w) (GenaiUploadFile path mime_type) with
    | Ok file => r = Some file /\ w_log w' = w_log w
    | Raise e =>
        r = None /\
        w_log w'
        = (ERROR, "Failed to upload image to Gemini: " ++ exn_msg e) :: w_log w
    end.
Proof.
  unfold upload_to_gemini. unfold_effects. cbn.
  destruct (env_answer env (w_trace w) (GenaiUploadFile path mime_type));
    cbn; eexists _, _; repeat split.
Qed.

(** X5. [upload_to_gcs] never raises and its flag is exact.  [True]
    means that the bucket has a name, the local file existed, the call
    to the service succeeded and the object now holds the file's
    contents; [False] means that the bucket is as it was.  When the
    local file is missing, or the bucket has no name, the answer is
    [False] without any call to the service.  Local files are never
    changed. *)
Theorem upload_to_gcs_flag_is_exact env b source dest w :
  exists ok w',
    upload_to_gcs env b source dest w = (Ok ok, w') /\
    w_files w' = w_files w /\
    (ok = true ->
     exists name data a,
       b = Some name /\ name <> EmptyString /\
       w_files w !! source = Some data /\
       w_trace w' = MkEvent (BlobUpload name source dest) (Ok a) :: w_trace w /\
       w_objects w' = <[(name, dest) := data]> (w_objects w)) /\
    (ok = false -> w_objects w' = w_objects w) /\
    (w_files w !! source = None \/ Py.truthy b = false ->
     ok = false /\ w_trace w' = w_trace w).
Proof.
  unfold upload_to_gcs, blob_upload_from_filename, bucket_handle.
  unfold_effects.
  destruct b as [[|c s]|]; cbn.
  1, 3: eexists _, _; split; [reflexivity|];
    (split; [reflexivity|]); (split; [discriminate|]);
    split; [reflexivity | intros _; split; reflexivity].
  destruct (w_files w !! source) as [data|] eqn:Hsource; cbn.
  - ask_env; eexists _, _; (split; [reflexivity|]); split; try reflexivity.
    + split; [|split; [discriminate | intros [Hnone|Hfalsy]; discriminate]].
      intros _. exists (String c s), data, a.
      repeat split. discriminate.
    + split; [discriminate|].
      split; [reflexivity | intros [Hnone|Hfalsy]; discriminate].
  - eexists _, _; split; [reflexivity|];
      (split; [reflexivity|]); (split; [discriminate|]);
      split; [reflexivity | intros _; split; reflexivity].
Qed.

Lemma list_blobs_names (objects : gmap (string * string) string)
    (bucket name : string) :
  In name (omap (fun kv : string * string * string =>
                   if String.eqb (fst (fst kv)) bucket
                   then Some (snd (fst kv)) else None)
                (map_to_list objects))
  <-> is_Some (objects !! (bucket, name)).
Proof.
  rewrite <- list_elem_of_In, list_elem_of_omap. split.
  - intros ([[b k] v] & Hin & Hkey). cbn in Hkey.
    destruct (String.eqb b bucket) eqn:Hb; [|discriminate].
    apply String.eqb_eq in Hb. injection Hkey as ->. subst b.
    apply elem_of_map_to_list in Hin. eauto.
  - intros [v Hv]. exists (bucket, name, v). split.
    + apply elem_of_map_to_list. exact Hv.
    + cbn. rewrite String.eqb_refl. reflexivity.
Qed.

(** X6. [list_uploaded_images] never raises and changes neither the
    bucket nor the local files.  When the listing call succeeds on a
    named bucket, the names it returns are exactly the keys of that
    bucket that end in [.jpg] or [.jpeg]; when the call fails, or the
    bucket has no name, it returns the empty list. *)
Theorem list_uploaded_images_exact env b w :
  exists images w',
    list_uploaded_images env b w = (Ok images, w') /\
    w_objects w' = w_objects w /\
    w_files w' = w_files w /\
    match b with
    | Some (String c s) =>
        match env_answer env (w_trace w) (ListBlobs (String c s)) with
        | Ok _ =>
            forall name,
              In name images
              <-> is_Some (w_objects w !! (String c s, name)) /\
                  is_jpeg_name name = true
        | Raise _ => images = []
        end
    | _ => images = [] /\ w_trace w' = w_trace w
    end.
Proof.
  unfold list_uploaded_images, list_blobs, bucket_handle. unfold_effects.
  destruct b as [[|c s]|]; cbn.
  1, 3: eexists _, _; repeat split.
  destruct (env_answer env (w_trace w) (ListBlobs (String c s))); cbn.
  - eexists _, _. do 3 (split; [reflexivity|]).
    intros name. unfold is_jpeg_name.
    rewrite List.filter_In, list_blobs_names. reflexivity.
  - eexists _, _. repeat split.
Qed.

(** X7. With the bucket name set, [index] always renders the gallery
    (status 200) and never raises, also when the listing fails: the
    gallery is then empty.  The colour is [BACKGROUND_COLOR] from the
    environment, or [#f0f2f5]; the names shown are keys of the bucket
    that end in [.jpg] or [.jpeg]; bucket and local files are not
    changed. *)
Theorem index_always_renders env b w :
  Py.truthy b = true ->
  exists images w',
    index env b w
    = (Ok (RenderIndex images
             (default "#f0f2f5" (w_environ w !! "BACKGROUND_COLOR"))), w') /\
    w_objects w' = w_objects w /\
    w_files w' = w_files w /\
    (forall name,
        In name images ->
        is_Some (object_at w b name) /\ is_jpeg_name name = true) /\
    ((exists ev, In ev (w_trace w') /\ ~ In ev (w_trace w) /\ ev_ok ev = false) ->
     images = []).
Proof.
  intros Hb. unfold index. rewrite Hb.
  unfold list_uploaded_images, list_blobs, bucket_handle, getenv.
  unfold_effects.
  destruct b as [[|c s]|]; try discriminate. cbn.
  destruct (env_answer env (w_trace w) (ListBlobs (String c s))) eqn:Hanswer;
    cbn; eexists _, _; (split; [reflexivity|]); repeat split.
  - apply List.filter_In in H. apply list_blobs_names, H.
  - apply List.filter_In in H. apply H.
  - intros (ev & [<-|Hin] & Hnew & Hfailed); [discriminate | contradiction].
  - destruct H.
  - destruct H.
Qed.

Lemma index_always_renders_witness :
  exists images w',
    index env_ok photos cat_uploaded
    = (Ok (RenderIndex images "#f0f2f5"), w') /\
    forall name, In name images -> is_jpeg_name name = true.
Proof.
  destruct (index_always_renders env_ok photos cat_uploaded eq_refl)
    as (images & w' & Hrun & _ & _ & Hnames & _).
  exists images, w'. split; [exact Hrun|].
  intros name Hin. apply (Hnames name Hin).
Defined.

(* ===================================================================== *)
(** ** Further properties: the view route *)
(* ===================================================================== *)

Ltac unfold_view :=
  unfold view_image, generate_temporary_url, blob_exists,
    blob_download_as_text, generate_signed_url, bucket_handle, getenv.

(** Case analysis on everything a run of [view_image] looks at. *)
Ltac view_cases :=
  repeat first
    [ ask_env
    | match goal with
      | |- context [w_objects ?w !! ?k] =>
          let E := fresh "Eobject" in
          destruct (w_objects w !! k) eqn:E; cbn
      | |- context [match ?f ?t with Ok _ => _ | Raise _ => _ end] =>
          lazymatch type of f with
          | string -> Outcome json =>
              let E := fresh "Eloads" in destruct (f t) eqn:E; cbn
          end
      | |- context [is_JSONDecodeError ?e] =>
          let E := fresh "Eclass" in
          destruct (is_JSONDecodeError e) eqn:E; cbn
      | |- context [dict_get ?j _ _] =>
          is_var j; destruct j; cbn
      end ].

(** X8. A view request without a filename (the parameter is missing or
    empty) is answered 400 and nothing else happens: no call to storage
    is made, nothing is logged, whatever the bucket setting. *)
Theorem view_image_requires_filename env jl b req w :
  Py.truthy (req_args req !! "filename") = false ->
  view_image env jl b req w = (Ok (Plain "No file specified" 400), w).
Proof.
  intros Hfalsy. unfold view_image.
  destruct (req_args req !! "filename") as [[|c s]|]; try discriminate;
    reflexivity.
Qed.

Lemma view_image_requires_filename_witness :
  view_image env_ok Json.loads photos
             (MkRequest ∅ {[ "filename" := EmptyString ]}) cat_uploaded
  = (Ok (Plain "No file specified" 400), cat_uploaded).
Proof.
  apply (view_image_requires_filename env_ok Json.loads photos
           (MkRequest ∅ {[ "filename" := EmptyString ]}) cat_uploaded).
  vm_compute. reflexivity.
Defined.

(** X9. [view_image] only reads: whatever the request, the bucket
    setting and the environment, it leaves the bucket, the local files,
    the process environment and the AI key as they were. *)
Theorem view_image_is_read_only env jl b req w :
  let w' := snd (view_image env jl b req w) in
  w_objects w' = w_objects w /\
  w_files w' = w_files w /\
  w_environ w' = w_environ w /\
  w_genai_key w' = w_genai_key w.
Proof.
  cbv zeta. unfold_view. unfold_effects.
  destruct (req_args req !! "filename") as [[|c s]|]; cbn;
    [repeat split | | repeat split].
  destruct b as [[|c' s']|]; cbn; [repeat split | | repeat split].
  view_cases.
  all: repeat split.
Qed.

(** The end of a run of [view_image] whose events are known: only runs
    in which every call succeeded are left to consider. *)
Ltac view_finish :=
  eexists _, _, _; split; [reflexivity|]; split; [trace_extends|];
  intros Hall;
  repeat match goal with
         | H : Forall _ (_ :: _) |- _ => inversion H; clear H; subst
         end;
  try discriminate.

(** X10. When the metadata object does not parse, a view in which the
    calls to storage succeed answers 500 [Invalid metadata format] if
    [json.loads] raised a JSON decode error, and lets any other
    exception of [json.loads] out of the handler; in both cases no URL
    is requested for the image. *)
Theorem view_image_invalid_metadata env jl name filename req w text e :
  name <> EmptyString ->
  filename <> EmptyString ->
  req_args req !! "filename" = Some filename ->
  w_objects w !! (name, json_filename_of filename) = Some text ->
  jl text = Raise e ->
  exists r w' evs,
    view_image env jl (Some name) req w = (r, w') /\
    w_trace w' = (evs ++ w_trace w)%list /\
    (Forall (fun ev => ev_ok ev = true) evs ->
     r = (if is_JSONDecodeError e
          then Ok (Plain "Invalid metadata format" 500)
          else Raise e) /\
     forall bucket key expiration answer,
       ~ In (MkEvent (GenerateSignedUrl bucket key expiration) answer) evs).
Proof.
  intros Hname Hfilename Hreq Hmeta Hloads.
  unfold_view. rewrite Hreq.
  destruct filename as [|c s]; [congruence|].
  destruct name as [|c' s']; [congruence|].
  fold (json_filename_of (String c s)).
  unfold_effects. cbn.
  ask_env; [rewrite Hmeta; cbn; ask_env|]; [rewrite Hmeta, Hloads; cbn|..].
  all: try match goal with
           | |- context [is_JSONDecodeError ?x] =>
               destruct (is_JSONDecodeError x); cbn
           end.
  all: view_finish.
  all: split; [reflexivity|]; intros bucket key expiration answer Hin;
    finish_events.
Qed.

Lemma view_image_invalid_metadata_witness :
  let w := set_objects (insert ("photos", "cat.json") "not json") empty_world in
  exists r w' evs,
    view_image env_ok Json.loads photos view_cat w = (r, w') /\
    w_trace w' = (evs ++ w_trace w)%list /\
    (Forall (fun ev => ev_ok ev = true) evs ->
     r = Ok (Plain "Invalid metadata format" 500) /\
     forall bucket key expiration answer,
       ~ In (MkEvent (GenerateSignedUrl bucket key expiration) answer) evs).
Proof.
  apply (view_image_invalid_metadata env_ok Json.loads "photos" "cat.jpg"
           view_cat
           (set_objects (insert ("photos", "cat.json") "not json") empty_world)
           "not json" (MkExn JSONDecodeError "Expecting value"));
    vm_compute; congruence.
Defined.

(** X11. When the metadata object parses to a dict but the bucket has
    no object under the filename itself, a view in which the calls to
    storage succeed answers 500 [Error generating image URL], and no
    URL was requested from the signer. *)
Theorem view_image_without_image env jl name filename req w text fields :
  name <> EmptyString ->
  filename <> EmptyString ->
  req_args req !! "filename" = Some filename ->
  w_objects w !! (name, json_filename_of filename) = Some text ->
  jl text = Ok (JObj fields) ->
  w_objects w !! (name, filename) = None ->
  exists r w' evs,
    view_image env jl (Some name) req w = (r, w') /\
    w_trace w' = (evs ++ w_trace w)%list /\
    (Forall (fun ev => ev_ok ev = true) evs ->
     r = Ok (Plain "Error generating image URL" 500) /\
     forall bucket key expiration answer,
       ~ In (MkEvent (GenerateSignedUrl bucket key expiration) answer) evs).
Proof.
  intros Hname Hfilename Hreq Hmeta Hloads Himage.
  unfold_view. rewrite Hreq.
  destruct filename as [|c s]; [congruence|].
  destruct name as [|c' s']; [congruence|].
  fold (json_filename_of (String c s)).
  unfold_effects. cbn.
  ask_env; [rewrite Hmeta; cbn; ask_env|];
    [rewrite Hmeta, Hloads; cbn; ask_env|..]; [rewrite Himage; cbn|..].
  all: try match goal with
           | |- context [is_JSONDecodeError ?x] =>
               destruct (is_JSONDecodeError x); cbn
           end.
  all: view_finish.
  split; [reflexivity|]. intros bucket key expiration answer Hin.
  finish_events.
Qed.

Lemma view_image_without_image_witness :
  exists r w' evs,
    view_image env_ok Json.loads photos view_cat
               (only_metadata (Json.dumps cat_record)) = (r, w') /\
    w_trace w'
    = (evs ++ w_trace (only_metadata (Json.dumps cat_record)))%list /\
    (Forall (fun ev => ev_ok ev = true) evs ->
     r = Ok (Plain "Error generating image URL" 500) /\
     forall bucket key expiration answer,
       ~ In (MkEvent (GenerateSignedUrl bucket key expiration) answer) evs).
Proof.
  apply (view_image_without_image env_ok Json.loads "photos" "cat.jpg"
           view_cat (only_metadata (Json.dumps cat_record))
           (Json.dumps cat_record)
           [("title", JStr "Cat"); ("description", JStr "A cat.")]);
    vm_compute; congruence.
Defined.

(** X12. When the metadata object parses to something that is not a
    dict (an array, a string, a number, a literal), a view in which the
    calls to storage succeed does not answer: the attribute error of
    [get] leaves the handler (the client sees a 500), before anything
    is asked about the image. *)
Theorem view_image_metadata_not_a_dict env jl name filename req w text v :
  name <> EmptyString ->
  filename <> EmptyString ->
  req_args req !! "filename" = Some filename ->
  w_objects w !! (name, json_filename_of filename) = Some text ->
  jl text = Ok v ->
  (forall fields, v <> JObj fields) ->
  exists r w' evs,
    view_image env jl (Some name) req w = (r, w') /\
    w_trace w' = (evs ++ w_trace w)%list /\
    (Forall (fun ev => ev_ok ev = true) evs ->
     (exists e, r = Raise e /\ exn_class e = AttributeError) /\
     http_status r = 500 /\
     exists a a',
       evs = [MkEvent (BlobDownload name (json_filename_of filename)) (Ok a');
              MkEvent (BlobExists name (json_filename_of filename)) (Ok a)]).
Proof.
  intros Hname Hfilename Hreq Hmeta Hloads Hdict.
  unfold_view. rewrite Hreq.
  destruct filename as [|c s]; [congruence|].
  destruct name as [|c' s']; [congruence|].
  fold (json_filename_of (String c s)).
  unfold_effects. cbn.
  ask_env; [rewrite Hmeta; cbn; ask_env|];
    [rewrite Hmeta, Hloads; cbn|..].
  1: destruct v; cbn; try (exfalso; eapply Hdict; reflexivity).
  all: try match goal with
           | |- context [is_JSONDecodeError ?x] =>
               destruct (is_JSONDecodeError x); cbn
           end.
  all: view_finish.
  all: split; [eexists; split; reflexivity|]; split; [reflexivity|];
    eexists _, _; reflexivity.
Qed.

Lemma view_image_metadata_not_a_dict_witness :
  exists r w' evs,
    view_image env_ok Json.loads photos view_cat
               (image_and_metadata "[1, 2]") = (r, w') /\
    w_trace w' = (evs ++ w_trace (image_and_metadata "[1, 2]"))%list /\
    (Forall (fun ev => ev_ok ev = true) evs ->
     (exists e, r = Raise e /\ exn_class e = AttributeError) /\
     http_status r = 500 /\
     exists a a',
       evs = [MkEvent (BlobDownload "photos" (json_filename_of "cat.jpg")) (Ok a');
              MkEvent (BlobExists "photos" (json_filename_of "cat.jpg")) (Ok a)]).
Proof.
  apply (view_image_metadata_not_a_dict env_ok Json.loads "photos" "cat.jpg"
           view_cat (image_and_metadata "[1, 2]") "[1, 2]"
           (JArr [JInt 1; JInt 2]));
    vm_compute; congruence.
Defined.



(* ===================================================================== *)
(** ** Further properties: the upload route *)
(* ===================================================================== *)

(** X14. The status of [upload] is 302, 400 or 500, and a 302 is the
    redirect to the view of the uploaded file's own name.  [upload]
    answers by itself unless its cleanup raises: that happens only when
    a directory, or a file that is not the process's to remove, is at
    one of the two temporary paths, and the exception that leaves the
    handler is then the one of [os.remove]. *)
Theorem upload_status env jl jd b req w :
  exists r w',
    upload env jl jd b req w = (r, w') /\
    (http_status r = 302 \/ http_status r = 400 \/ http_status r = 500) /\
    (http_status r = 302 ->
     exists file,
       req_files req !! "image" = Some file /\
       r = Ok (Redirect "view_image" (filename file))) /\
    (forall e,
       r = Raise e ->
       exists file,
         req_files req !! "image" = Some file /\
         ((is_blocked w (temp_path_of file) = true /\
           e = cannot_remove (temp_path_of file)) \/
          (is_blocked w (json_path_of file) = true /\
           e = cannot_remove (json_path_of file)))).
Proof.
  destruct (upload_request_cases b req)
    as [Hguard | (name & file & -> & Hname & Hfile & Hfn)].
  - unfold upload, upload_try, upload_finally.
    destruct (Py.truthy b) eqn:Hb; cbn.
    2: { eexists _, _. split; [reflexivity|]. cbn.
         split; [auto|]. split; discriminate. }
    destruct Hguard as [Hfalse | [Hnone | (file & Hfile & Hname)]];
      [discriminate | rewrite Hnone | rewrite Hfile, Hname];
      unfold_effects; cbn; eexists _, _; (split; [reflexivity|]); cbn;
      (split; [auto|]); split; discriminate.
  - destruct (upload_run env jl jd name file req w Hname Hfile Hfn)
      as (r & w' & evs & Hrun & _ & Hexit).
    inversion Hexit; subst; eexists _, w'; (split; [exact Hrun|]); cbn;
      (split; [auto|]); (split; [try discriminate|]); try discriminate.
    + intros _. exists file. split; [assumption|reflexivity].
    + intros e [= <-]. exists file. split; [assumption|]. left. auto.
    + intros e [= <-]. exists file. split; [assumption|]. right. auto.
Qed.

(** X15. A redirect means that both objects are stored: the bucket is
    the one before the request with the image object written under the
    file's name and then the metadata object written under the name
    with its extension replaced by [.json]; the metadata is the dump of
    a record with exactly the two fields [title] and [description];
    neither temporary file is left. *)
Theorem upload_redirect_means_stored env jl jd b req w target w' :
  upload env jl jd b req w = (Ok (Redirect "view_image" target), w') ->
  exists name file evs_ai title description,
    b = Some name /\
    req_files req !! "image" = Some file /\
    target = filename file /\
    captioned env jl file w evs_ai title description /\
    w_objects w'
    = <[(name, json_filename_of target)
          := jd (JObj [("title", title); ("description", description)])]>
        (<[(name, target) := image_contents jd file title description]>
           (w_objects w)) /\
    w_files w' !! temp_path_of file = None /\
    w_files w' !! json_path_of file = None.
Proof.
  intros Hupload.
  destruct (upload_request_cases b req)
    as [Hguard | (name & file & -> & Hname & Hfile & Hfn)].
  { destruct (upload_guard env jl jd b req w Hguard) as (body & status & Hrun).
    rewrite Hrun in Hupload. discriminate. }
  destruct (upload_run env jl jd name file req w Hname Hfile Hfn)
    as (r & w_up & evs & Hrun & _ & Hexit).
  rewrite Hrun in Hupload. injection Hupload as -> ->.
  inversion Hexit as [ | | | | | evs_ai title description a a' files'
                               Hcaptioned Htp Hjp Hr Hobjects Hfiles Hevs | | ].
  exists name, file, evs_ai, title, description.
  repeat split; try assumption; reflexivity.
Qed.

Lemma upload_redirect_means_stored_witness :
  exists name file evs_ai title description,
    photos = Some name /\
    req_files upload_cat !! "image" = Some file /\
    "cat.jpg" = filename file /\
    captioned env_ok Json.loads file empty_world evs_ai title description /\
    w_objects cat_uploaded
    = <[(name, json_filename_of "cat.jpg")
          := Json.dumps (JObj [("title", title); ("description", description)])]>
        (<[(name, "cat.jpg")
             := image_contents Json.dumps file title description]>
           (w_objects empty_world)) /\
    w_files cat_uploaded !! temp_path_of file = None /\
    w_files cat_uploaded !! json_path_of file = None.
Proof.
  apply (upload_redirect_means_stored env_ok Json.loads Json.dumps photos
           upload_cat empty_world "cat.jpg" cat_uploaded).
  vm_compute. reflexivity.
Defined.

(** X16. When what captioning returns is not a dict (the AI answered
    with a JSON array, string, number or literal), [upload] answers 500
    [Internal Server Error]: nothing is sent to the bucket, the bucket
    is unchanged and the saved image is removed.  (The temporary path is
    one the process can write to and remove: a file of its own, or
    nothing.) *)
Theorem upload_caption_not_a_dict env jl jd name file req w ai w_ai :
  name <> EmptyString ->
  req_files req !! "image" = Some file ->
  filename file <> EmptyString ->
  is_blocked w (temp_path_of file) = false ->
  generative_ai env jl (temp_path_of file) (after_save env file w)
  = (Ok ai, w_ai) ->
  (forall fields, ai <> JObj fields) ->
  exists w' evs,
    upload env jl jd (Some name) req w
    = (Ok (Plain "Internal Server Error" 500), w') /\
    w_trace w' = (evs ++ w_trace w)%list /\
    List.filter is_blob_upload evs = [] /\
    w_objects w' = w_objects w /\
    w_files w' !! temp_path_of file = None.
Proof.
  intros Hname Hfile Hfn Hfree Hai Hdict.
  destruct (upload_run env jl jd name file req w Hname Hfile Hfn)
    as (r & w' & evs & Hrun & Htrace & Hexit).
  exists w', evs.
  assert (Hnot : forall evs_ai title description,
             ~ captioned env jl file w evs_ai title description).
  { intros evs_ai title description (ai' & (w_ai' & Hai' & _) & Htitle & _).
    rewrite Hai in Hai'. injection Hai' as <- <-.
    destruct ai; try discriminate. eapply Hdict. reflexivity. }
  inversion Hexit; subst;
    try match goal with
        | H : captioned _ _ _ _ _ _ _ |- _ => destruct (Hnot _ _ _ H)
        end.
  - repeat split; assumption.
  - match goal with
    | H : captioning _ _ _ _ _ _ |- _ => destruct H as (? & ? & ? & Hgen)
    end.
    repeat split; try assumption.
    rewrite List.filter_app, (genai_events_filter_blob_upload _ Hgen).
    reflexivity.
  - congruence.
Qed.

Lemma upload_caption_not_a_dict_witness :
  exists w' evs,
    upload (env_chat "[1, 2]") Json.loads Json.dumps (Some "photos")
           upload_cat empty_world
    = (Ok (Plain "Internal Server Error" 500), w') /\
    w_trace w' = (evs ++ w_trace empty_world)%list /\
    List.filter is_blob_upload evs = [] /\
    w_objects w' = w_objects empty_world /\
    w_files w' !! temp_path_of cat_file = None.
Proof.
  apply (upload_caption_not_a_dict (env_chat "[1, 2]") Json.loads Json.dumps
           "photos" cat_file upload_cat empty_world (JArr [JInt 1; JInt 2])
           (snd (generative_ai (env_chat "[1, 2]") Json.loads
                   (temp_path_of cat_file)
                   (after_save (env_chat "[1, 2]") cat_file empty_world))));
    try (vm_compute; congruence).
Defined.

(** X17. When saving the uploaded file fails, at a path where a file of
    the process or nothing is, [upload] answers 500 [Internal Server
    Error] after that one attempt: the AI service and the bucket are not
    contacted, the error is logged, and the cleanup removes whatever
    file is at the temporary path, a partial file as well as a file that
    was there before the request. *)
Theorem upload_save_failure env jl jd name file req w e left :
  name <> EmptyString ->
  req_files req !! "image" = Some file ->
  filename file <> EmptyString ->
  is_blocked w (temp_path_of file) = false ->
  env_write env (w_trace w) (temp_path_of file) = WriteFailed e left ->
  exists w',
    upload env jl jd (Some name) req w
    = (Ok (Plain "Internal Server Error" 500), w') /\
    w_trace w' = MkEvent (FileWrite (temp_path_of file)) (Raise e) :: w_trace w /\
    w_log w' = (ERROR, "Unexpected error: " ++ exn_msg e) :: w_log w /\
    w_objects w' = w_objects w /\
    w_files w' = delete (temp_path_of file) (w_files w).
Proof.
  intros Hname Hfile Hfn Hfree Hwrite.
  pose proof (path_join_tmp_nonempty (filename file)) as Htp.
  unfold upload, upload_try, upload_finally.
  destruct name as [|c s]; [congruence|].
  destruct (filename file) as [|c' s'] eqn:Efn; [congruence|].
  rewrite <- Efn in *.
  assert (Heqb : String.eqb (filename file) EmptyString = false)
    by (rewrite Efn; reflexivity).
  cbn [Py.truthy negb]. rewrite Hfile, Heqb.
  fold (temp_path_of file) in *.
  unfold write_file at 1. unfold_effects. unfold set_temp_path, get_locals. cbn.
  rewrite Hfree, Hwrite.
  destruct left as [part|]; cbn;
    rewrite remove_if_exists_run by first [assumption | unblocked]; cbn;
    eexists; repeat split.
  cbn. apply delete_insert_eq.
Qed.

Lemma upload_save_failure_witness :
  exists w',
    upload env_disk_full Json.loads Json.dumps (Some "photos") upload_cat
           empty_world
    = (Ok (Plain "Internal Server Error" 500), w') /\
    w_trace w'
    = MkEvent (FileWrite (temp_path_of cat_file))
              (Raise (MkExn OSError "No space left on device"))
        :: w_trace empty_world /\
    w_log w'
    = (ERROR, "Unexpected error: "
                ++ exn_msg (MkExn OSError "No space left on device"))
        :: w_log empty_world /\
    w_objects w' = w_objects empty_world /\
    w_files w' = delete (temp_path_of cat_file) (w_files empty_world).
Proof.
  apply (upload_save_failure env_disk_full Json.loads Json.dumps "photos"
           cat_file upload_cat empty_world
           (MkExn OSError "No space left on device") None);
    vm_compute; congruence.
Defined.





(** X19. The metadata key ignores the extension, so files that differ
    only in their extension share one metadata object: after a
    successful upload, a view of any image in the bucket whose name has
    the same metadata key (the uploaded file itself included) renders
    the title and description of that latest upload, when the view's
    own calls succeed and [json.loads] reads back what [json.dumps]
    printed. *)
Theorem view_follows_metadata_key env jl jd name req file view_req other
    w w_up evs_ai title description :
  req_files req !! "image" = Some file ->
  upload env jl jd (Some name) req w
  = (Ok (Redirect "view_image" (filename file)), w_up) ->
  captioned env jl file w evs_ai title description ->
  jl (jd (metadata_record title description))
  = Ok (metadata_record title description) ->
  req_args view_req !! "filename" = Some other ->
  other <> EmptyString ->
  json_filename_of other = json_filename_of (filename file) ->
  is_Some (w_objects w !! (name, other)) \/ other = filename file ->
  exists r w_view evs,
    view_image env jl (Some name) view_req w_up = (r, w_view) /\
    w_trace w_view = (evs ++ w_trace w_up)%list /\
    (Forall (fun ev => ev_ok ev = true) evs ->
     exists url bg_color, r = Ok (RenderView url title description bg_color)).
Proof.
  intros Hfile Hupload Hcaptioned Hcodec Hview_req Hother Hkey Himage.
  destruct (upload_request_cases (Some name) req)
    as [Hguard | (name' & file' & Hb & Hname & Hfile' & Hfn)].
  { destruct (upload_guard env jl jd (Some name) req w Hguard)
      as (body & status & Hrun).
    rewrite Hrun in Hupload. discriminate. }
  injection Hb as <-.
  assert (file' = file) by congruence. subst file'.
  destruct (upload_run env jl jd name file req w Hname Hfile Hfn)
    as (r_up & w_up' & evs_up & Hrun & _ & Hexit).
  rewrite Hrun in Hupload. injection Hupload as -> ->.
  inversion Hexit as [ | | | | | evs_ai' title' description' a a' files'
                               Hcaptioned' Htp Hjp Hr Hobjects Hfiles Hevs | | ].
  destruct Hcaptioned as (ai & (w_ai & Hai & _) & Htitle & Hdescription).
  destruct Hcaptioned' as (ai' & (w_ai' & Hai' & _) & Htitle' & Hdescription').
  rewrite Hai in Hai'. injection Hai' as <- <-.
  assert (title' = title) by congruence.
  assert (description' = description) by congruence.
  subst title' description'.
  apply (view_image_run env jl name other view_req w_up
           (jd (metadata_record title description)) title description);
    try assumption.
  - rewrite <- Hobjects, Hkey. apply lookup_insert_eq.
  - rewrite <- Hobjects, lookup_insert. case_decide; [eauto|].
    rewrite lookup_insert. case_decide; [eauto|].
    destruct Himage as [Hstored | ->]; [exact Hstored|].
    congruence.
Qed.

Lemma view_follows_metadata_key_witness :
  exists r w_view evs,
    view_image (env_chat fenced_dog) Json.loads (Some "photos") view_cat
               cat_jpeg_uploaded = (r, w_view) /\
    w_trace w_view = (evs ++ w_trace cat_jpeg_uploaded)%list /\
    (Forall (fun ev => ev_ok ev = true) evs ->
     exists url bg_color,
       r = Ok (RenderView url (JStr "Dog") (JStr "A dog.") bg_color)).
Proof.
  pose (env := env_chat fenced_dog).
  pose (captioning_run :=
          generative_ai env Json.loads (temp_path_of cat_jpeg_file)
                        (after_save env cat_jpeg_file cat_uploaded)).
  apply (view_follows_metadata_key env Json.loads Json.dumps "photos"
           upload_cat_jpeg cat_jpeg_file view_cat "cat.jpg"
           cat_uploaded cat_jpeg_uploaded
           (firstn 4 (w_trace (snd captioning_run)))
           (JStr "Dog") (JStr "A dog."));
    try (vm_compute; congruence).
  - exists dog_record. split; [|split; vm_compute; reflexivity].
    exists (snd captioning_run). vm_compute. repeat split. repeat constructor.
  - left. vm_compute. eauto.
Defined.

(* ===================================================================== *)
(** ** Further properties: the code fences of the AI answer *)
(* ===================================================================== *)

Lemma append_empty_r (s : string) : s ++ EmptyString = s.
Proof.
  induction s as [|c s IH]; [reflexivity|].
  change (String c (s ++ EmptyString) = String c s). rewrite IH. reflexivity.
Qed.

Lemma remove_all_from_cons (old : string) (c : ascii) (rest : string) :
  Py.remove_all_from old 0 (String c rest)
  = if String.prefix old (String c rest)
    then Py.remove_all_from old (String.length old - 1) rest
    else String c (Py.remove_all_from old 0 rest).
Proof. reflexivity. Qed.

Lemma prefix_backtick_false (old : string) (c : ascii) (s : string) :
  Ascii.eqb c backtick = false ->
  String.prefix (String backtick old) (String c s) = false.
Proof.
  intros Hc.
  change (match ascii_dec backtick c with
          | left _ => String.prefix old s
          | right _ => false
          end = false).
  destruct (ascii_dec backtick c) as [<-|]; [|reflexivity].
  rewrite Ascii.eqb_refl in Hc. discriminate.
Qed.

(** Removing a marker leaves text without backticks as it is. *)
Lemma remove_all_skips_plain_text (old body tail : string) :
  no_backtick body = true ->
  Py.remove_all_from (String backtick old) 0 (body ++ tail)
  = body ++ Py.remove_all_from (String backtick old) 0 tail.
Proof.
  induction body as [|c body IH]; intros Hbody; [reflexivity|].
  cbn in Hbody. apply andb_prop in Hbody as [Hc Hrest].
  apply negb_true_iff in Hc.
  change (String c body ++ tail) with (String c (body ++ tail)).
  rewrite remove_all_from_cons, (prefix_backtick_false _ _ _ Hc), (IH Hrest).
  reflexivity.
Qed.

Lemma json_not_prefix_before_fence (body : string) :
  no_backtick body = true ->
  String.prefix "json" body = false ->
  String.prefix "json" (body ++ "```") = false.
Proof.
  intros _ Hprefix.
  destruct body as [|c1 [|c2 [|c3 [|c4 rest]]]];
    cbv [String.append String.prefix] in *;
    repeat match goal with
           | |- context [ascii_dec ?a ?b] => destruct (ascii_dec a b)
           end;
    try reflexivity; try discriminate.
  destruct rest; discriminate.
Qed.

(** X20. What [generative_ai] hands to [json.loads] for a fenced answer
    is the stripped body.  For a body without backticks: an answer
    fenced with the [json] tag, an answer in a bare fence (when the body
    does not itself start with [json]) and an answer without a fence
    all give the body with the white space around it removed. *)
Theorem strip_fences_unwraps (body : string) :
  no_backtick body = true ->
  strip_fences ("```json" ++ body ++ "```") = Py.strip body /\
  (String.prefix "json" body = false ->
   strip_fences ("```" ++ body ++ "```") = Py.strip body) /\
  strip_fences body = Py.strip body.
Proof.
  intros Hbody. unfold strip_fences, Py.remove_all.
  assert (Htag : forall x,
             Py.remove_all_from "```json" 0 ("```json" ++ x)
             = Py.remove_all_from "```json" 0 x)
    by (intros x; destruct x; reflexivity).
  assert (Hbare : forall x,
             Py.remove_all_from "```" 0 ("```" ++ x)
             = Py.remove_all_from "```" 0 x)
    by (intros x; destruct x; reflexivity).
  assert (Hclose : Py.remove_all_from "```" 0 (body ++ "```") = body).
  { rewrite (remove_all_skips_plain_text "``" body "```" Hbody).
    apply append_empty_r. }
  assert (Hkeep : Py.remove_all_from "```json" 0 (body ++ "```") = body ++ "```")
    by (rewrite (remove_all_skips_plain_text "``json" body "```" Hbody);
        reflexivity).
  split; [|split].
  - rewrite Htag, Hkeep, Hclose. reflexivity.
  - intros Hjson.
    assert (Hfirst : Py.remove_all_from "```json" 0 ("```" ++ body ++ "```")
                     = "```" ++ body ++ "```").
    { pose proof (json_not_prefix_before_fence body Hbody Hjson) as Hnot.
      destruct body as [|c body].
      - vm_compute. reflexivity.
      - cbn in Hbody. apply andb_prop in Hbody as [Hc Hrest].
        apply negb_true_iff in Hc.
        change ("```" ++ String c body ++ "```")
          with (String backtick (String backtick (String backtick
                  (String c (body ++ "```"))))).
        rewrite remove_all_from_cons.
        replace (String.prefix "```json"
                   (String backtick (String backtick (String backtick
                      (String c (body ++ "```"))))))
          with (String.prefix "json" (String c body ++ "```"))
          by (vm_compute; reflexivity).
        rewrite Hnot.
        rewrite remove_all_from_cons.
        replace (String.prefix "```json"
                   (String backtick (String backtick
                      (String c (body ++ "```")))))
          with (String.prefix (String backtick "json") (String c (body ++ "```")))
          by (vm_compute; reflexivity).
        rewrite (prefix_backtick_false _ _ _ Hc).
        rewrite remove_all_from_cons.
        replace (String.prefix "```json"
                   (String backtick (String c (body ++ "```"))))
          with (String.prefix (String backtick "`json") (String c (body ++ "```")))
          by (vm_compute; reflexivity).
        rewrite (prefix_backtick_false _ _ _ Hc).
        rewrite remove_all_from_cons, (prefix_backtick_false _ _ _ Hc).
        rewrite (remove_all_skips_plain_text "``json" body "```" Hrest).
        reflexivity. }
    rewrite Hfirst, Hbare, Hclose. reflexivity.
  - rewrite <- (append_empty_r body) at 1.
    rewrite (remove_all_skips_plain_text "``json" body EmptyString Hbody).
    change (Py.remove_all_from "```json" 0 EmptyString) with EmptyString.
    rewrite (remove_all_skips_plain_text "``" body EmptyString Hbody).
    change (Py.remove_all_from "```" 0 EmptyString) with EmptyString.
    rewrite !append_empty_r. reflexivity.
Qed.

Lemma strip_fences_unwraps_witness :
  strip_fences fenced_cat = Json.dumps cat_record.
Proof.
  pose (body := String Json.newline (Json.dumps cat_record)
                  ++ String Json.newline EmptyString).
  destruct (strip_fences_unwraps body) as (Htag & _ & _);
    [vm_compute; reflexivity|].
  replace fenced_cat with ("```json" ++ body ++ "```")
    by (vm_compute; reflexivity).
  rewrite Htag. vm_compute. reflexivity.
Defined.

(* ===================================================================== *)
(** ** Further properties: order of the AI calls, and the gallery *)
(* ===================================================================== *)

(** X21. [generative_ai] talks to the AI service only, in a fixed
    order, and stops at the first failure: the model, then the upload
    of the image, then the chat, then the message.  The chat is not
    started when the upload failed.  The bucket and the local files are
    not touched. *)
Theorem generative_ai_call_order env jl image_file w :
  exists v w' evs,
    generative_ai env jl image_file w = (Ok v, w') /\
    w_trace w' = (evs ++ w_trace w)%list /\
    w_objects w' = w_objects w /\
    w_files w' = w_files w /\
    let model := GenerativeModel "gemini-1.5-flash" in
    let upload_file := GenaiUploadFile image_file "image/jpeg" in
    let message := SendMessage "Generate title and description in JSON format" in
    ((exists e, evs = [MkEvent model (Raise e)]) \/
     (exists a e, evs = [MkEvent upload_file (Raise e); MkEvent model (Ok a)]) \/
     (exists a f e,
         evs = [MkEvent StartChat (Raise e); MkEvent upload_file (Ok f);
                MkEvent model (Ok a)]) \/
     (exists a f c answer,
         evs = [MkEvent message answer; MkEvent StartChat (Ok c);
                MkEvent upload_file (Ok f); MkEvent model (Ok a)])).
Proof.
  run_generative_ai.
  all: eexists _, _, _; split; [reflexivity|]; split; [trace_extends|].
  all: do 2 (split; [reflexivity|]); cbv zeta.
  all: first [ left; eexists; reflexivity
             | right; left; eexists _, _; reflexivity
             | right; right; left; eexists _, _, _; reflexivity
             | right; right; right; eexists _, _, _, _; reflexivity ].
Qed.

(** X22. An uploaded image whose name ends in [.jpg] or [.jpeg] shows
    in the gallery: after an upload that answered with the redirect,
    [index] lists the file's name whenever its listing call succeeds. *)
Theorem uploaded_jpeg_is_listed env jl jd b req w target w_up :
  upload env jl jd b req w = (Ok (Redirect "view_image" target), w_up) ->
  is_jpeg_name target = true ->
  exists r w' evs,
    index env b w_up = (r, w') /\
    w_trace w' = (evs ++ w_trace w_up)%list /\
    (Forall (fun ev => ev_ok ev = true) evs ->
     exists images bg_color,
       r = Ok (RenderIndex images bg_color) /\ In target images).
Proof.
  intros Hupload Hjpeg.
  destruct (upload_request_cases b req)
    as [Hguard | (name & file & -> & Hname & Hfile & Hfn)].
  { destruct (upload_guard env jl jd b req w Hguard) as (body & status & Hrun).
    rewrite Hrun in Hupload. discriminate. }
  destruct (upload_run env jl jd name file req w Hname Hfile Hfn)
    as (r_up & w_up' & evs_up & Hrun & _ & Hexit).
  rewrite Hrun in Hupload. injection Hupload as -> ->.
  inversion Hexit as [ | | | | | evs_ai title description a a' files'
                               Hcaptioned Htp Hjp Hr Hobjects Hfiles Hevs | | ].
  subst target.
  assert (Hstored : is_Some (w_objects w_up !! (name, filename file))).
  { rewrite <- Hobjects, lookup_insert. case_decide; [eauto|].
    rewrite lookup_insert_eq. eauto. }
  unfold index, list_uploaded_images, list_blobs, bucket_handle, getenv.
  destruct name as [|c s]; [congruence|].
  unfold_effects. cbn.
  ask_env; eexists _, _, _; (split; [reflexivity|]);
    (split; [trace_extends|]); intros Hall.
  - eexists _, _. split; [reflexivity|].
    apply List.filter_In. split; [|exact Hjpeg].
    apply list_blobs_names. exact Hstored.
  - inversion Hall; subst. discriminate.
Qed.

Lemma uploaded_jpeg_is_listed_witness :
  exists r w' evs,
    index env_ok photos cat_uploaded = (r, w') /\
    w_trace w' = (evs ++ w_trace cat_uploaded)%list /\
    (Forall (fun ev => ev_ok ev = true) evs ->
     exists images bg_color,
       r = Ok (RenderIndex images bg_color) /\ In "cat.jpg" images).
Proof.
  apply (uploaded_jpeg_is_listed env_ok Json.loads Json.dumps photos
           upload_cat empty_world "cat.jpg" cat_uploaded);
    vm_compute; reflexivity.
Defined.
